(** * passport-vkontakte: the VK.com strategy ([lib/strategy.js])

    A shallow embedding of [lib/strategy.js] and the properties of it that the
    specification states.  JavaScript values are modelled as a tree type,
    objects as finite maps from property names to values, exceptions as an
    error monad, and calls that leave the module (the application's verify
    callback, [done], [this.error]) as events or call descriptors. *)

From Stdlib Require Import ZArith Ascii String.
From stdpp Require Import gmap strings list fin_maps pretty.

Set Warnings "-register-all,-clear-no-such-hyp".
Local Open Scope Z_scope.

(** ** JavaScript values *)

Module JS.

(** Data values.  Numbers are the integer-valued ones (identifiers, codes,
    sizes); functions are not data and have a type of their own below. *)
Inductive value :=
| VUndefined
| VNull
| VBool (b : bool)
| VNum (z : Z)
| VStr (s : string)
| VArr (l : list value)
| VObj (m : gmap string value).

(** A function of the application or of a collaborator: opaque, known by its
    name and by its declared parameter count ([f.length]). *)
Record function := Function { fn_name : string; fn_length : nat }.

(** Modelled from the spec: the error classes [VkontakteAPIError] and
    [VkontakteTokenError] of [lib/errors/], which are not among the sources;
    each is built from the provider's message and code, and the two are
    distinct types.  The other constructors are the errors of the runtime and
    of [passport-oauth2] that the module throws or passes on. *)
Inductive exn :=
| VkontakteAPIError (message code : value)
| VkontakteTokenError (message code : value)
| InternalOAuthError (message : string) (err : value)
| Error (message : string)
| TypeError
| SyntaxError.

(** The outcome of evaluating a piece of code: a value, or a thrown exception. *)
Inductive completion (A : Type) :=
| Return (a : A)
| Throw (e : exn).
Arguments Return {A} a.
Arguments Throw {A} e.

#[export] Instance completion_ret : MRet completion := @Return.
#[export] Instance completion_bind : MBind completion := λ A B f c,
  match c with Return a => f a | Throw e => Throw e end.
#[export] Instance completion_fmap : FMap completion := λ A B f c,
  match c with Return a => Return (f a) | Throw e => Throw e end.

(** ToBoolean *)
Definition truthy (v : value) : bool :=
  match v with
  | VUndefined | VNull => false
  | VBool b => b
  | VNum z => negb (z =? 0)
  | VStr s => negb (String.eqb s "")
  | VArr _ | VObj _ => true
  end.

(** [a || b] *)
Definition js_or (a b : value) : value := if truthy a then a else b.

(** [typeof v] *)
Definition typeof (v : value) : string :=
  match v with
  | VUndefined => "undefined"
  | VNull => "object"
  | VBool _ => "boolean"
  | VNum _ => "number"
  | VStr _ => "string"
  | VArr _ | VObj _ => "object"
  end.

(** [Array.prototype.join]: [undefined] and [null] elements print as the empty
    string. *)
Definition join_with (str : value → string) (sep : string) (l : list value) : string :=
  String.concat sep
    (map (λ v, match v with VUndefined | VNull => "" | _ => str v end) l).

(** ToString, as applied by [+] with a string operand and by [join]. *)
Fixpoint to_string (v : value) : string :=
  match v with
  | VUndefined => "undefined"
  | VNull => "null"
  | VBool true => "true"
  | VBool false => "false"
  | VNum z => pretty z
  | VStr s => s
  | VArr l => join_with to_string "," l
  | VObj _ => "[object Object]"
  end.

Definition js_join (l : list value) (sep : string) : string := join_with to_string sep l.

(** [a + b] where [a] is a string: concatenation with ToString of [b]. *)
Definition js_add (a : string) (b : value) : string := a +:+ to_string b.

(** [o.k] for a property name [k] that is an ordinary identifier: own
    properties of objects, [length] of arrays and strings, [undefined]
    otherwise; reading a property of [undefined] or [null] throws. *)
Definition get_prop (o : value) (k : string) : completion value :=
  match o with
  | VUndefined | VNull => Throw TypeError
  | VObj m => Return (default VUndefined (m !! k))
  | VArr l => Return (if String.eqb k "length" then VNum (Z.of_nat (length l)) else VUndefined)
  | VStr s => Return (if String.eqb k "length" then VNum (Z.of_nat (String.length s)) else VUndefined)
  | VBool _ | VNum _ => Return VUndefined
  end.

(** [o[i]] for a numeric index [i]. *)
Definition get_index (o : value) (i : nat) : completion value :=
  match o with
  | VUndefined | VNull => Throw TypeError
  | VArr l => Return (default VUndefined (l !! i))
  | VObj m => Return (default VUndefined (m !! pretty i))
  | VStr s => Return (match String.get i s with Some c => VStr (String c "") | None => VUndefined end)
  | VBool _ | VNum _ => Return VUndefined
  end.

(** [o.k = v] for a property name [k] that is an ordinary identifier other
    than [length], in a module that is not in strict mode (this one has no
    strict directive): assigning on [undefined] or [null] throws, an object
    gets or replaces the property, a primitive is left as it is.  An array
    accepts the assignment too; the arrays of this model carry their elements
    only, so the named property is not recorded on it. *)
Definition set_prop (o : value) (k : string) (v : value) : completion value :=
  match o with
  | VUndefined | VNull => Throw TypeError
  | VObj m => Return (VObj (<[k := v]> m))
  | VBool _ | VNum _ | VStr _ => Return o
  | VArr l => Return (VArr l)
  end.

(** [a === b] on primitives.  Objects and arrays are compared by reference;
    two objects written separately are never the same reference. *)
Definition strict_eq (a b : value) : bool :=
  match a, b with
  | VUndefined, VUndefined | VNull, VNull => true
  | VBool x, VBool y => Bool.eqb x y
  | VNum x, VNum y => x =? y
  | VStr x, VStr y => String.eqb x y
  | _, _ => false
  end.

(** [l.indexOf(x) < 0] *)
Definition not_indexOf (l : list value) (x : value) : bool :=
  negb (existsb (strict_eq x) l).

End JS.
Export JS.

(** ** What the module does to the outside *)

(** An argument of a call: a data value or a function. *)
Inductive arg :=
| Val (v : value)
| Fn (f : function).

(** Calls that leave the module while a verify callback runs. *)
Inductive event :=
| Call (f : function) (args : list arg)
| StrategyError (e : exn).

(** A function that can be registered as the verify callback of the OAuth2
    client: one supplied by the application, or the closure that
    [verifyWrapper(options, verify)] returns. *)
Inductive callback :=
| Supplied (verify : function)
| PassportVerify (options : gmap string value) (verify : function).

(** [done(e)] and [done(null, profile)]: the arguments [done] is called with. *)
Record done_call := Done { done_err : option exn; done_profile : option value }.

(** The request handed to [this._oauth2.getProtectedResource]. *)
Record resource_request := Request { req_url : string; req_accessToken : value }.

(** The runtime and the OAuth2 client ([passport-oauth2]), outside this module:
    - [JSON_parse body] is [None] where [JSON.parse(body)] throws;
    - [OAuth2Strategy_call options verify] is [Some e] where the base
      constructor throws [e] (it validates the client credentials);
    - [OAuth2Strategy_parseErrorResponse] is the base class's error parser. *)
Class Environment := {
  JSON_parse : string → option value;
  OAuth2Strategy_call : gmap string value → callback → option exn;
  DefaultError : Type;
  OAuth2Strategy_parseErrorResponse : string → value → completion DefaultError
}.

(** ** The strategy *)

(** The instance [this] after construction.  [_options] and [_verify] are the
    two arguments the base constructor [OAuth2Strategy] received: the client
    keeps the second as the callback it calls after the token exchange. *)
Record strategy := {
  lang : value;
  photoSize : value;
  _options : gmap string value;
  _verify : callback;
  name : string;
  _profileURL : value;
  _profileFields : value;
  _apiVersion : value
}.

(** [options.k] on an options object *)
Definition opt (options : gmap string value) (k : string) : value :=
  default VUndefined (options !! k).

Section Strategy.
Context `{Environment}.

(** [function Strategy(options, verify)]; [options] is [None] when the caller
    passes none. *)
Definition Strategy (options : option (gmap string value)) (verify : function)
  : completion strategy :=
  let options := default ∅ options in
  let options := <["authorizationURL" :=
    js_or (opt options "authorizationURL") (VStr "https://oauth.vk.com/authorize")]> options in
  let options := <["tokenURL" :=
    js_or (opt options "tokenURL") (VStr "https://oauth.vk.com/access_token")]> options in
  let options := <["scopeSeparator" :=
    js_or (opt options "scopeSeparator") (VStr ",")]> options in
  let options := <["passReqToCallback" := VBool true]> options in
  let this_lang := js_or (opt options "lang") (VStr "en") in
  let this_photoSize := js_or (opt options "photoSize") (VNum 200) in
  let options := delete "lang" options in
  let options := delete "photoSize" options in
  let registered := Supplied verify in
  match OAuth2Strategy_call options registered with
  | Some e => Throw e
  | None =>
    Return {|
      lang := this_lang;
      photoSize := this_photoSize;
      _options := options;
      _verify := registered;
      name := "vkontakte";
      _profileURL := js_or (opt options "profileURL") (VStr "https://api.vk.com/method/users.get");
      _profileFields := js_or (opt options "profileFields") (VArr []);
      _apiVersion := js_or (opt options "apiVersion") (VStr "5.110")
    |}
  end.

(** The function returned by [verifyWrapper(options, verify)]; the
    assignment of [profile.emails] is not guarded and throws when [profile]
    is [undefined] or [null]. *)
Definition passportVerify (verify : function)
    (req accessToken refreshToken params profile : value)
    (verified : function) : completion (value * event) :=
  email ← (if truthy params then get_prop params "email" else Return params);
  profile ←
    (if truthy email
     then set_prop profile "emails" (VArr [VObj {["value" := email]}])
     else Return profile);
  let arity := fn_length verify in
  if (arity =? 6)%nat then
    Return (profile, Call verify [Val req; Val accessToken; Val refreshToken;
                                  Val params; Val profile; Fn verified])
  else if (arity =? 5)%nat then
    Return (profile, Call verify [Val accessToken; Val refreshToken;
                                  Val params; Val profile; Fn verified])
  else if (arity =? 4)%nat then
    Return (profile, Call verify [Val accessToken; Val refreshToken;
                                  Val profile; Fn verified])
  else
    Return (profile, StrategyError
      (Error "VKontakteStrategy: verify callback must take 4 or 5 parameters")).

(** [function verifyWrapper(options, verify)] *)
Definition verifyWrapper (options : gmap string value) (verify : function) : callback :=
  PassportVerify options verify.

(** The OAuth2 client ([passport-oauth2], outside this module) calling the
    callback it was given at construction, in the mode this strategy always
    asks for ([passReqToCallback], line 55).  The client looks at the
    declared parameter count of the callback: one that declares six
    parameters is called with
    [(req, accessToken, refreshToken, params, profile, verified)], any other
    one with [(req, accessToken, refreshToken, profile, verified)].  The
    closure of [verifyWrapper] declares six parameters.  The call sits in a
    [try] block of the client: an exception of the callback goes to
    [this.error].  [profile] is whatever the client loaded: the object
    [userProfile] delivered, or [undefined] when it skips the profile. *)
Definition call_verify (cb : callback)
    (req accessToken refreshToken params profile : value)
    (verified : function) : value * event :=
  match cb with
  | Supplied verify =>
    if (fn_length verify =? 6)%nat then
      (profile, Call verify [Val req; Val accessToken; Val refreshToken;
                             Val params; Val profile; Fn verified])
    else
      (profile, Call verify [Val req; Val accessToken; Val refreshToken;
                             Val profile; Fn verified])
  | PassportVerify _ verify =>
    match passportVerify verify req accessToken refreshToken params profile verified with
    | Return result => result
    | Throw ex => (profile, StrategyError ex)
    end
  end.

(** [Strategy.prototype.authorizationParams] *)
Definition authorizationParams (options : gmap string value) : gmap string value :=
  let params := ∅ in
  if truthy (opt options "display")
  then <["display" := opt options "display"]> params
  else params.

(** Modelled from the spec: [parse] of [lib/profile.js], which is not among
    the sources.  The user record becomes a normalized profile: the numeric
    [uid] is passed through as [id]; [displayName] is the given name, a space
    and the family name; [name] holds both; the sex code 1 gives gender
    [female], 2 gives [male], any other code leaves the gender unspecified;
    the photo field becomes a one-element list of photo descriptors ([parse]
    is called with the record alone and is not told the size, so the field is
    the record's [photo_<size>] entry: the requested one whenever the record
    holds a single such entry, as it does for the required fields); [city] is
    passed through only if present.  A malformed record (not an object) is
    an error. *)
Definition parse (json : value) : completion (gmap string value) :=
  match json with
  | VObj r =>
    let first_name := opt r "first_name" in
    let last_name := opt r "last_name" in
    let profile : gmap string value :=
      <["id" := opt r "uid"]> ∅ in
    let profile :=
      <["displayName" := VStr (to_string first_name +:+ " " +:+ to_string last_name)]> profile in
    let profile :=
      <["name" := VObj (<["familyName" := last_name]> (<["givenName" := first_name]> ∅))]> profile in
    let profile :=
      match opt r "sex" with
      | VNum 1 => <["gender" := VStr "female"]> profile
      | VNum 2 => <["gender" := VStr "male"]> profile
      | _ => profile
      end in
    let profile :=
      match head (map_to_list (filter (λ kv, String.prefix "photo_" kv.1 = true) r)) with
      | Some (_, photo) => <["photos" := VArr [VObj (<["value" := photo]> ∅)]]> profile
      | None => profile
      end in
    let profile :=
      match r !! "city" with
      | Some city => <["city" := city]> profile
      | None => profile
      end in
    Return profile
  | _ => Throw TypeError
  end.

(** [this._profileFields.forEach(function(f) { if (fields.indexOf(f) < 0) fields.push(f); })] *)
Definition push_new (fields : list value) (f : value) : list value :=
  if not_indexOf fields f then fields ++ [f] else fields.

(** The [fields] array of [userProfile] once the caller's fields are merged.
    [forEach] exists on arrays only. *)
Definition userProfile_fields (this : strategy) : completion (list value) :=
  let fields :=
    [ VStr "uid"
    ; VStr "first_name"
    ; VStr "last_name"
    ; VStr "screen_name"
    ; VStr "sex"
    ; VStr (js_add "photo_" (photoSize this)) ] in
  match _profileFields this with
  | VArr l => Return (fold_left push_new l fields)
  | _ => Throw TypeError
  end.

(** The URL [userProfile] requests. *)
Definition userProfile_url (this : strategy) : completion string :=
  let url := to_string (_profileURL this) in
  fields ← userProfile_fields this;
  let url := url +:+
    js_add ("?fields=" +:+ js_join fields "," +:+ "&v=") (_apiVersion this) +:+ "&https=1" in
  let url := if truthy (lang this) then url +:+ js_add "&lang=" (lang this) else url in
  Return url.

(** [Strategy.prototype.userProfile], up to the request it issues ... *)
Definition userProfile (this : strategy) (accessToken : value) : completion resource_request :=
  url ← userProfile_url this;
  Return (Request url accessToken).

(** ... and the function it passes to [getProtectedResource], which ends in
    one call of [done]. *)
Definition userProfile_callback (err : value) (body : string) : done_call :=
  if truthy err then
    Done (Some (InternalOAuthError "failed to fetch user profile" err)) None
  else
    let tried : completion (gmap string value) :=
      json ← from_option Return (Throw SyntaxError) (JSON_parse body);
      error ← get_prop json "error";
      if truthy error then
        error_msg ← get_prop error "error_msg";
        error_code ← get_prop error "error_code";
        Throw (VkontakteAPIError error_msg error_code)
      else
        response ← get_prop json "response";
        json ← get_index response 0;
        profile ← parse json;
        let profile := <["provider" := VStr "vkontakte"]> profile in
        let profile := <["_raw" := VStr body]> profile in
        let profile := <["_json" := json]> profile in
        Return profile in
    match tried with
    | Return profile => Done None (Some (VObj profile))
    | Throw e => Done (Some e) None
    end.

(** [Strategy.prototype.parseErrorResponse]: the token error it builds, or
    what the base class's parser answers. *)
Definition parseErrorResponse (body : string) (status : value)
  : completion (exn + DefaultError) :=
  json ← from_option Return (Throw SyntaxError) (JSON_parse body);
  error ← get_prop json "error";
  if truthy error && String.eqb (typeof error) "object" then
    error_msg ← get_prop error "error_msg";
    error_code ← get_prop error "error_code";
    Return (inl (VkontakteTokenError error_msg error_code))
  else
    inr <$> OAuth2Strategy_parseErrorResponse body status.

End Strategy.

(** ** A reference environment

    A parser for the part of JSON the provider's payloads use (objects,
    arrays, strings without escapes, integers, [true], [false], [null]) and
    an OAuth2 client that insists on a client identifier.  The properties
    below hold in every environment; this one runs them on concrete bodies. *)

Module Reference.

Definition dquote : ascii := "034"%char.

(** [s] between double quotes *)
Definition quoted (s : string) : string := String dquote s +:+ String dquote "".

Definition is_ws (c : ascii) : bool :=
  (c =? " ")%char || (c =? "009")%char || (c =? "010")%char || (c =? "013")%char.

Fixpoint skip_ws (s : string) : string :=
  match s with
  | String c r => if is_ws c then skip_ws r else s
  | "" => ""
  end.

Definition digit (c : ascii) : option Z :=
  let n := nat_of_ascii c in
  if ((48 <=? n) && (n <=? 57))%nat then Some (Z.of_nat n - 48) else None.

(** the digits at the head of [s], read in base ten after [acc] *)
Fixpoint digits (s : string) (acc : Z) : Z * string :=
  match s with
  | String c r =>
    match digit c with
    | Some d => digits r (10 * acc + d)
    | None => (acc, s)
    end
  | "" => (acc, "")
  end.

(** a printable ASCII character *)
Definition is_plain (c : ascii) : bool :=
  let n := nat_of_ascii c in ((32 <=? n) && (n <=? 126))%nat.

(** the characters up to the closing quote; escapes are outside the subset *)
Fixpoint string_body (s : string) : option (string * string) :=
  match s with
  | "" => None
  | String c r =>
    if (c =? dquote)%char then Some ("", r)
    else if (c =? "\")%char || negb (is_plain c) then None
    else '(t, r') ← string_body r; Some (String c t, r')
  end.

Definition literal (s : string) : option (value * string) :=
  if String.prefix "true" s then Some (VBool true, String.substring 4 (String.length s - 4) s)
  else if String.prefix "false" s then Some (VBool false, String.substring 5 (String.length s - 5) s)
  else if String.prefix "null" s then Some (VNull, String.substring 4 (String.length s - 4) s)
  else None.

(** an integer without a leading zero *)
Definition natural (s : string) : option (Z * string) :=
  match s with
  | String c r =>
    match digit c with
    | Some 0 =>
      match r with
      | String d _ => match digit d with Some _ => None | None => Some (0, r) end
      | "" => Some (0, r)
      end
    | Some _ => Some (digits s 0)
    | None => None
    end
  | "" => None
  end.

Definition number (s : string) : option (value * string) :=
  match s with
  | String c r =>
    if (c =? "-")%char then '(z, r') ← natural r; Some (VNum (- z), r')
    else '(z, r') ← natural s; Some (VNum z, r')
  | "" => None
  end.

Fixpoint json_value (fuel : nat) (s : string) : option (value * string) :=
  match fuel with
  | O => None
  | S fuel =>
    match skip_ws s with
    | "" => None
    | String c r =>
      if (c =? "{")%char then
        match skip_ws r with
        | String "}" r' => Some (VObj ∅, r')
        | r' => '(m, r'') ← json_members fuel r' ∅; Some (VObj m, r'')
        end
      else if (c =? "[")%char then
        match skip_ws r with
        | String "]" r' => Some (VArr [], r')
        | r' => '(l, r'') ← json_elements fuel r'; Some (VArr l, r'')
        end
      else if (c =? dquote)%char then
        '(t, r') ← string_body r; Some (VStr t, r')
      else
        match literal (String c r) with
        | Some lit => Some lit
        | None => number (String c r)
        end
    end
  end
with json_elements (fuel : nat) (s : string) : option (list value * string) :=
  match fuel with
  | O => None
  | S fuel =>
    '(v, r) ← json_value fuel s;
    match skip_ws r with
    | String "," r' => '(l, r'') ← json_elements fuel r'; Some (v :: l, r'')
    | String "]" r' => Some ([v], r')
    | _ => None
    end
  end
with json_members (fuel : nat) (s : string) (acc : gmap string value)
  : option (gmap string value * string) :=
  match fuel with
  | O => None
  | S fuel =>
    match skip_ws s with
    | String c r =>
      if (c =? dquote)%char then
        '(k, r1) ← string_body r;
        match skip_ws r1 with
        | String ":" r2 =>
          '(v, r3) ← json_value fuel r2;
          match skip_ws r3 with
          | String "," r4 => json_members fuel r4 (<[k := v]> acc)
          | String "}" r4 => Some (<[k := v]> acc, r4)
          | _ => None
          end
        | _ => None
        end
      else None
    | "" => None
    end
  end.

(** [JSON.parse] on the subset: the whole text must be one value. *)
Definition json_parse (s : string) : option value :=
  '(v, r) ← json_value (2 * String.length s + 2) s;
  match skip_ws r with
  | "" => Some v
  | _ => None
  end.

(** The base constructor of [passport-oauth2] rejects options without a
    client identifier; its error parser is left abstract (one answer). *)
Definition env : Environment := {|
  JSON_parse := json_parse;
  OAuth2Strategy_call := λ options _,
    if truthy (opt options "clientID") then None else Some TypeError;
  DefaultError := unit;
  OAuth2Strategy_parseErrorResponse := λ _ _, Return ()
|}.

End Reference.


(** ** Vocabulary of the specification *)

(** The optional configuration fields that have a documented default. *)
Definition optional_fields : list string :=
  ["authorizationURL"; "tokenURL"; "scopeSeparator"; "lang"; "photoSize";
   "apiVersion"; "profileURL"].

(** A configuration input omits the optional fields. *)
Definition omits_optional_fields (options : option (gmap string value)) : Prop :=
  Forall (λ k, default ∅ options !! k = None) optional_fields.

(** The profile carries exactly one email entry, of value [email]. *)
Definition has_single_email (profile : gmap string value) (email : value) : Prop :=
  profile !! "emails" = Some (VArr [VObj {["value" := email]}]).

(** The supported shapes of the verify callback, by declared arity. *)
Definition documented_arguments (arity : nat)
    (req accessToken refreshToken params profile : value) (done : function)
  : option (list arg) :=
  match arity with
  | 6%nat => Some [Val req; Val accessToken; Val refreshToken; Val params; Val profile; Fn done]
  | 5%nat => Some [Val accessToken; Val refreshToken; Val params; Val profile; Fn done]
  | 4%nat => Some [Val accessToken; Val refreshToken; Val profile; Fn done]
  | _ => None
  end.

(** The fixed required set of profile fields for a photo size. *)
Definition required_fields (photoSize : value) : list string :=
  ["uid"; "first_name"; "last_name"; "screen_name"; "sex";
   "photo_" +:+ to_string photoSize].

(** The caller's fields that are not in [seen], each at its first occurrence
    only, in the caller's order. *)
Fixpoint first_occurrences (seen : list string) (l : list string) : list string :=
  match l with
  | [] => []
  | f :: l =>
    if decide (f ∈ seen) then first_occurrences seen l
    else f :: first_occurrences (seen ++ [f]) l
  end.

(** An object-shaped value: a non-null value of type [object]. *)
Definition object_shaped (v : value) : bool :=
  truthy v && String.eqb (typeof v) "object".

(** ** Inputs of the examples *)

Module Examples.
Import Reference.

Definition options : gmap string value :=
  <["clientID" := VStr "123-456-789"]>
  (<["clientSecret" := VStr "shhh-its-a-secret"]>
  (<["callbackURL" := VStr "https://www.example.net/auth/vkontakte/callback"]> ∅)).

Definition verify4 : function := Function "verify" 4.
Definition verify3 : function := Function "verify" 3.
Definition verified : function := Function "verified" 3.

Definition req : value := VObj (<["url" := VStr "/auth/vkontakte/callback"]> ∅).
Definition accessToken : value := VStr "token".
Definition refreshToken : value := VUndefined.
Definition params : value :=
  VObj (<["email" := VStr "user@example.net"]> (<["user_id" := VNum 1]> ∅)).
Definition profile : gmap string value :=
  <["provider" := VStr "vkontakte"]> (<["id" := VNum 1]> ∅).

(** [{ "response": [ { "uid": 1, "first_name": "A", "last_name": "B",
    "sex": 2, "photo_200": "http://x" } ] }] *)
Definition profile_body : string :=
  "{ " +:+ quoted "response" +:+ ": [ { " +:+ quoted "uid" +:+ ": 1, "
  +:+ quoted "first_name" +:+ ": " +:+ quoted "A" +:+ ", "
  +:+ quoted "last_name" +:+ ": " +:+ quoted "B" +:+ ", "
  +:+ quoted "sex" +:+ ": 2, "
  +:+ quoted "photo_200" +:+ ": " +:+ quoted "http://x" +:+ " } ] }".

Definition user_record : value :=
  VObj (<["uid" := VNum 1]> (<["first_name" := VStr "A"]> (<["last_name" := VStr "B"]>
       (<["sex" := VNum 2]> (<["photo_200" := VStr "http://x"]> ∅))))).

Definition profile_json : value := VObj (<["response" := VArr [user_record]]> ∅).

(** [{ "error": { "error_msg": "Invalid token", "error_code": 5 } }] *)
Definition api_error_body : string :=
  "{ " +:+ quoted "error" +:+ ": { " +:+ quoted "error_msg" +:+ ": "
  +:+ quoted "Invalid token" +:+ ", " +:+ quoted "error_code" +:+ ": 5 } }".

(** [{ "error": { "error_msg": "invalid_grant", "error_code": 100 } }] *)
Definition token_error_body : string :=
  "{ " +:+ quoted "error" +:+ ": { " +:+ quoted "error_msg" +:+ ": "
  +:+ quoted "invalid_grant" +:+ ", " +:+ quoted "error_code" +:+ ": 100 } }".

(** [{ "error": "invalid_grant", "error_description": "Code is expired." }] *)
Definition oauth2_error_body : string :=
  "{ " +:+ quoted "error" +:+ ": " +:+ quoted "invalid_grant" +:+ ", "
  +:+ quoted "error_description" +:+ ": " +:+ quoted "Code is expired." +:+ " }".

Definition status : value := VNum 401.

(** A body that is no JSON at all, and the JSON text [null]. *)
Definition invalid_body : string := "<html>502 Bad Gateway</html>".
Definition null_body : string := "null".


End Examples.

(** ** Further vocabulary and inputs *)

(** A resolved option: the caller's value where it is truthy, the default
    otherwise. *)
Definition caller_or_default (given dflt resolved : value) : Prop :=
  if truthy given then resolved = given else resolved = dflt.

(** The keys of the options object that the constructor assigns or deletes. *)
Definition constructor_keys : list string :=
  ["authorizationURL"; "tokenURL"; "scopeSeparator"; "passReqToCallback";
   "lang"; "photoSize"].

(** The three properties [userProfile] assigns on the parsed profile. *)
Definition userProfile_keys : list string := ["provider"; "_raw"; "_json"].

Module Cases.
Import Reference.

(** A caller who chose a locale and a photo size, passed an empty API
    version, and set an option this module does not know. *)
Definition options_ru : gmap string value :=
  <["lang" := VStr "ru"]>
  (<["photoSize" := VNum 100]>
  (<["apiVersion" := VStr ""]>
  (<["state" := VBool true]> Examples.options))).

(** The same options once a constructor has run on them. *)
Definition options_ru_forwarded : gmap string value :=
  <["authorizationURL" := VStr "https://oauth.vk.com/authorize"]>
  (<["tokenURL" := VStr "https://oauth.vk.com/access_token"]>
  (<["scopeSeparator" := VStr ","]>
  (<["passReqToCallback" := VBool true]>
  (<["apiVersion" := VStr ""]>
  (<["state" := VBool true]> Examples.options))))).

(** A caller who wrote the profile fields as one string. *)
Definition options_fields_string : gmap string value :=
  <["profileFields" := VStr "city"]> Examples.options.

(** The instances built from these options, and from the example options. *)
Definition this_ru : strategy := {|
  lang := VStr "ru";
  photoSize := VNum 100;
  _options := options_ru_forwarded;
  _verify := Supplied Examples.verify4;
  name := "vkontakte";
  _profileURL := VStr "https://api.vk.com/method/users.get";
  _profileFields := VArr [];
  _apiVersion := VStr "5.110"
|}.

Definition this_ru_again : strategy := {|
  lang := VStr "en";
  photoSize := VNum 200;
  _options := options_ru_forwarded;
  _verify := Supplied Examples.verify3;
  name := "vkontakte";
  _profileURL := VStr "https://api.vk.com/method/users.get";
  _profileFields := VArr [];
  _apiVersion := VStr "5.110"
|}.

Definition this_fields_string : strategy := {|
  lang := VStr "en";
  photoSize := VNum 200;
  _options :=
    <["authorizationURL" := VStr "https://oauth.vk.com/authorize"]>
    (<["tokenURL" := VStr "https://oauth.vk.com/access_token"]>
    (<["scopeSeparator" := VStr ","]>
    (<["passReqToCallback" := VBool true]> options_fields_string)));
  _verify := Supplied Examples.verify4;
  name := "vkontakte";
  _profileURL := VStr "https://api.vk.com/method/users.get";
  _profileFields := VStr "city";
  _apiVersion := VStr "5.110"
|}.

Definition this_default : strategy := {|
  lang := VStr "en";
  photoSize := VNum 200;
  _options :=
    <["authorizationURL" := VStr "https://oauth.vk.com/authorize"]>
    (<["tokenURL" := VStr "https://oauth.vk.com/access_token"]>
    (<["scopeSeparator" := VStr ","]>
    (<["passReqToCallback" := VBool true]> Examples.options)));
  _verify := Supplied Examples.verify4;
  name := "vkontakte";
  _profileURL := VStr "https://api.vk.com/method/users.get";
  _profileFields := VArr [];
  _apiVersion := VStr "5.110"
|}.

(** Token-exchange parameters without an email, and with an empty one. *)
Definition params_plain : value := VObj (<["user_id" := VNum 1]> ∅).
Definition params_empty_email : value :=
  VObj (<["email" := VStr ""]> (<["user_id" := VNum 1]> ∅)).

(** A profile that already lists an address. *)
Definition profile_with_emails : gmap string value :=
  <["emails" := VArr [VObj (<["value" := VStr "old@example.net"]> ∅)]]> Examples.profile.

(** A transport error as the OAuth client reports it. *)
Definition transport_error : value :=
  VObj (<["statusCode" := VNum 401]> (<["data" := VStr "Unauthorized"]> ∅)).

(** An instance whose caller listed values of several kinds. *)
Definition this_mixed_fields : strategy := {|
  lang := VStr "en";
  photoSize := VNum 200;
  _options := Examples.options;
  _verify := Supplied Examples.verify4;
  name := "vkontakte";
  _profileURL := VStr "https://api.vk.com/method/users.get";
  _profileFields := VArr [VNum 5; VStr "uid"; VNull; VStr "city"];
  _apiVersion := VStr "5.110"
|}.

(** An instance whose caller repeated fields: [city] twice and the required
    [uid]. *)
Definition this_repeated_fields : strategy := {|
  lang := VStr "en";
  photoSize := VNum 200;
  _options := Examples.options;
  _verify := Supplied Examples.verify4;
  name := "vkontakte";
  _profileURL := VStr "https://api.vk.com/method/users.get";
  _profileFields := VArr (VStr <$> (["city"; "bdate"] ++ ["city"; "uid"]));
  _apiVersion := VStr "5.110"
|}.

Definition this_plain_fields : strategy := {|
  lang := VStr "en";
  photoSize := VNum 200;
  _options := Examples.options;
  _verify := Supplied Examples.verify4;
  name := "vkontakte";
  _profileURL := VStr "https://api.vk.com/method/users.get";
  _profileFields := VArr (VStr <$> ["city"; "bdate"]);
  _apiVersion := VStr "5.110"
|}.

End Cases.

(** ** Construction *)

Section Construction.
Context `{Environment}.

Lemma opt_None (options : gmap string value) k :
  options !! k = None → opt options k = VUndefined.
Proof. unfold opt. by intros ->. Qed.

Lemma opt_insert_ne (options : gmap string value) k k' v :
  k ≠ k' → opt (<[k := v]> options) k' = opt options k'.
Proof. unfold opt. intros. by rewrite lookup_insert_ne. Qed.

Lemma opt_delete_ne (options : gmap string value) k k' :
  k ≠ k' → opt (delete k options) k' = opt options k'.
Proof. unfold opt. intros. by rewrite lookup_delete_ne. Qed.

(** The constructor fails only where the base constructor does, with the
    exception the base constructor throws. *)
Lemma Strategy_Throw options verify e :
  Strategy options verify = Throw e →
  ∃ options', OAuth2Strategy_call options' (Supplied verify) = Some e.
Proof.
  unfold Strategy. intros Hs.
  match type of Hs with
  | context [OAuth2Strategy_call ?o _] =>
    exists o; destruct (OAuth2Strategy_call o (Supplied verify)); [congruence | discriminate]
  end.
Qed.

(** The base constructor receives the application's function, as it is. *)
Lemma Strategy_registers_supplied options verify this :
  Strategy options verify = Return this → _verify this = Supplied verify.
Proof.
  unfold Strategy. destruct (OAuth2Strategy_call _ _); [discriminate |].
  intros [= <-]. reflexivity.
Qed.

(** The instance keeps the caller's photo size and profile fields. *)
Lemma Strategy_profile_options options verify this :
  Strategy options verify = Return this →
  photoSize this = js_or (opt (default ∅ options) "photoSize") (VNum 200) ∧
  _profileFields this = js_or (opt (default ∅ options) "profileFields") (VArr []).
Proof.
  unfold Strategy. destruct (OAuth2Strategy_call _ _); [discriminate |].
  intros [= <-]. cbn [photoSize _profileFields].
  by rewrite ?opt_delete_ne, ?opt_insert_ne.
Qed.

(** The construction comes to what the base constructor does with the
    resolved options and the application's function. *)
Lemma Strategy_outcome options verify :
  ∃ options',
    match OAuth2Strategy_call options' (Supplied verify) with
    | None => ∃ this, Strategy options verify = Return this ∧ _options this = options'
    | Some e => Strategy options verify = Throw e
    end.
Proof.
  unfold Strategy.
  match goal with
  | |- context [OAuth2Strategy_call ?o (Supplied verify)] =>
    exists o; destruct (OAuth2Strategy_call o (Supplied verify)) as [e |] eqn:Hcall
  end.
  - reflexivity.
  - eexists. split; reflexivity.
Qed.

(** What the OAuth2 client's call of an application's function comes to. *)
Lemma call_verify_Supplied verify req accessToken refreshToken params profile verified :
  call_verify (Supplied verify) req accessToken refreshToken params profile verified
  = (profile,
     Call verify
       (if (fn_length verify =? 6)%nat
        then [Val req; Val accessToken; Val refreshToken; Val params; Val profile;
              Fn verified]
        else [Val req; Val accessToken; Val refreshToken; Val profile; Fn verified])).
Proof. unfold call_verify. by destruct (fn_length verify =? 6)%nat. Qed.

(** C6: for every configuration input that omits the optional fields, the
    instance is built with the documented defaults: authorization URL
    [https://oauth.vk.com/authorize], token URL
    [https://oauth.vk.com/access_token], scope separator [,], locale [en],
    photo size [200], API version [5.110], profile URL
    [https://api.vk.com/method/users.get]; and whatever the caller passed, the
    options handed to the OAuth2 client have [passReqToCallback] set to [true].
    Construction fails only where the base constructor throws. *)
Theorem Strategy_defaults options verify :
  (∀ e, Strategy options verify = Throw e →
        ∃ options', OAuth2Strategy_call options' (Supplied verify) = Some e) ∧
  (∀ this, Strategy options verify = Return this →
    _options this !! "passReqToCallback" = Some (VBool true) ∧
    (omits_optional_fields options →
      _options this !! "authorizationURL" = Some (VStr "https://oauth.vk.com/authorize") ∧
      _options this !! "tokenURL" = Some (VStr "https://oauth.vk.com/access_token") ∧
      _options this !! "scopeSeparator" = Some (VStr ",") ∧
      lang this = VStr "en" ∧
      photoSize this = VNum 200 ∧
      _apiVersion this = VStr "5.110" ∧
      _profileURL this = VStr "https://api.vk.com/method/users.get")).
Proof.
  split; [apply Strategy_Throw |].
  intros this. unfold Strategy.
  destruct (OAuth2Strategy_call _ _); [discriminate |].
  intros [= <-]. cbn [_options lang photoSize _apiVersion _profileURL].
  split; [by simplify_map_eq |].
  intros Homit.
  assert (Hk : ∀ k, k ∈ optional_fields → opt (default ∅ options) k = VUndefined).
  { intros k Hin. apply opt_None. revert k Hin. by apply Forall_forall. }
  unfold optional_fields in Hk.
  rewrite ?opt_delete_ne, ?opt_insert_ne by done.
  rewrite !Hk by set_solver.
  repeat split; by simplify_map_eq.
Qed.

(** C3: for every strategy instance, the callback registered with the OAuth2
    client at construction is the application's verify function itself: the
    base constructor is called on the resolved options and on that function,
    and its outcome on them decides the construction; the instance holds no
    [verifyWrapper] closure.  Called by the client, it is the application's
    function that runs, on the client's own arguments (six with [params] for
    a six-parameter function, five without [params] otherwise) and on the
    client's profile as it is: the wrapper's email merge, its dispatch and
    its error are never reached. *)
Theorem Strategy_registers_verify_itself options verify :
  (∃ options',
    match OAuth2Strategy_call options' (Supplied verify) with
    | None => ∃ this, Strategy options verify = Return this ∧ _options this = options'
    | Some e => Strategy options verify = Throw e
    end) ∧
  (∀ this, Strategy options verify = Return this →
    _verify this = Supplied verify ∧
    (∀ options', _verify this ≠ verifyWrapper options' verify) ∧
    (∀ req accessToken refreshToken params profile verified,
      call_verify (_verify this) req accessToken refreshToken params profile verified
      = (profile,
         Call verify
           (if (fn_length verify =? 6)%nat
            then [Val req; Val accessToken; Val refreshToken; Val params; Val profile;
                  Fn verified]
            else [Val req; Val accessToken; Val refreshToken; Val profile;
                  Fn verified])))).
Proof.
  split; [apply Strategy_outcome |].
  intros this Hthis. apply Strategy_registers_supplied in Hthis as ->.
  split; [reflexivity |]. split; [discriminate |].
  intros. apply call_verify_Supplied.
Qed.

End Construction.

(** ** The verify wrapper, on its own *)

Section Wrapper.

Lemma passportVerify_email_claim_Return params :
  ∃ email, (if truthy params then get_prop params "email" else Return params) = Return email.
Proof. destruct params; cbn; repeat case_match; eauto. Qed.

(** Called directly, the wrapper merges a (truthy) email claim into the
    profile as its single email entry, and leaves the profile alone otherwise. *)
Lemma passportVerify_emails verify req accessToken refreshToken params
    (profile : gmap string value) verified :
  ∃ (profile' : gmap string value) ev,
    passportVerify verify req accessToken refreshToken params (VObj profile) verified
    = Return (VObj profile', ev) ∧
    (∀ email, truthy params = true → get_prop params "email" = Return email →
       truthy email = true → has_single_email profile' email) ∧
    ((truthy params = false ∨ get_prop params "email" = Return VUndefined) →
       profile' = profile).
Proof.
  unfold passportVerify.
  destruct (passportVerify_email_claim_Return params) as [email Hemail].
  rewrite Hemail. cbn [mbind completion_bind].
  set (profile' := if truthy email
                   then <["emails" := VArr [VObj {["value" := email]}]]> profile
                   else profile).
  assert (Hset : (if truthy email
                  then set_prop (VObj profile) "emails" (VArr [VObj {["value" := email]}])
                  else Return (VObj profile)) = Return (VObj profile'))
    by (subst profile'; by destruct (truthy email)).
  rewrite Hset. cbn [mbind completion_bind].
  assert (Hyes : ∀ e, truthy params = true → get_prop params "email" = Return e →
                 truthy e = true → has_single_email profile' e).
  { intros e Hp He Ht. rewrite Hp, He in Hemail. injection Hemail as <-.
    subst profile'. rewrite Ht. apply lookup_insert_eq. }
  assert (Hno : (truthy params = false ∨ get_prop params "email" = Return VUndefined) →
                profile' = profile).
  { intros [Hp | He]; subst profile'.
    - rewrite Hp in Hemail. injection Hemail as <-. by rewrite Hp.
    - destruct (truthy params) eqn:Hp.
      + rewrite He in Hemail. by injection Hemail as <-.
      + injection Hemail as <-. by rewrite Hp. }
  exists profile'.
  destruct (fn_length verify =? 6)%nat; [eauto |].
  destruct (fn_length verify =? 5)%nat; [eauto |].
  destruct (fn_length verify =? 4)%nat; eauto.
Qed.

Lemma set_prop_Throw o k v e :
  set_prop o k v = Throw e → e = TypeError ∧ (o = VUndefined ∨ o = VNull).
Proof.
  destruct o; cbn; intros Hset; try discriminate Hset;
    injection Hset as <-; split; auto.
Qed.

(** The one outside call the wrapper makes once the profile is settled. *)
Lemma passportVerify_after_merge verify req accessToken refreshToken params profile
    verified email profile' :
  (if truthy params then get_prop params "email" else Return params) = Return email →
  (if truthy email
   then set_prop profile "emails" (VArr [VObj {["value" := email]}])
   else Return profile) = Return profile' →
  passportVerify verify req accessToken refreshToken params profile verified
  = Return (profile',
      match documented_arguments (fn_length verify)
              req accessToken refreshToken params profile' verified with
      | Some args => Call verify args
      | None => StrategyError
          (Error "VKontakteStrategy: verify callback must take 4 or 5 parameters")
      end).
Proof.
  intros Hemail Hset. unfold passportVerify.
  rewrite Hemail. cbn [mbind completion_bind]. rewrite Hset. cbn [mbind completion_bind].
  destruct verify as [f n]. cbn [fn_length].
  do 7 (destruct n as [| n]; [reflexivity |]). reflexivity.
Qed.

(** X8: called directly, the wrapper either throws a [TypeError] at the
    assignment of [profile.emails], which happens exactly when the email is
    truthy and the profile is [undefined] or [null], and then makes no
    outside call; or it makes exactly one outside call, by the declared
    arity of the application's function: the documented argument list for 6,
    5 and 4 parameters, with the profile as the merge left it, and an error
    through [this.error] and no call of the function otherwise. *)
Lemma passportVerify_dispatch verify req accessToken refreshToken params profile verified :
  (passportVerify verify req accessToken refreshToken params profile verified
   = Throw TypeError ∧
   (profile = VUndefined ∨ profile = VNull) ∧
   ∃ email, get_prop params "email" = Return email ∧ truthy email = true) ∨
  (∃ profile',
    passportVerify verify req accessToken refreshToken params profile verified
    = Return (profile',
        match documented_arguments (fn_length verify)
                req accessToken refreshToken params profile' verified with
        | Some args => Call verify args
        | None => StrategyError
            (Error "VKontakteStrategy: verify callback must take 4 or 5 parameters")
        end) ∧
    ((profile ≠ VUndefined ∧ profile ≠ VNull) ∨
     ∀ email, get_prop params "email" = Return email → truthy email = false)).
Proof.
  destruct (passportVerify_email_claim_Return params) as [email Hemail].
  destruct (truthy email) eqn:Htruthy.
  - assert (Hget : get_prop params "email" = Return email).
    { destruct (truthy params) eqn:Hparams; [exact Hemail |].
      injection Hemail as <-. congruence. }
    destruct (set_prop profile "emails" (VArr [VObj {["value" := email]}]))
      as [profile' | e] eqn:Hset.
    + right. exists profile'. split.
      * apply (passportVerify_after_merge _ _ _ _ _ _ _ email); [exact Hemail |].
        by rewrite Htruthy.
      * left. by destruct profile.
    + apply set_prop_Throw in Hset as Hwhy. destruct Hwhy as [-> Hprofile].
      left. split; [| split].
      * unfold passportVerify. rewrite Hemail. cbn [mbind completion_bind].
        by rewrite Htruthy, Hset.
      * exact Hprofile.
      * eauto.
  - right. exists profile. split.
    + apply (passportVerify_after_merge _ _ _ _ _ _ _ email); [exact Hemail |].
      by rewrite Htruthy.
    + right. intros email' Hget.
      destruct (truthy params) eqn:Hparams.
      * rewrite Hget in Hemail. by injection Hemail as <-.
      * destruct params; try discriminate Hparams; cbn in Hget; try discriminate Hget;
          by injection Hget as <-.
Qed.

End Wrapper.

(** ** The strategy built from the example options *)

Section ExampleStrategy.
Import Reference Examples.

(** C1, at a token exchange that carries an email claim: the strategy built
    from the example options hands the application's callback the profile as
    the OAuth2 client passed it, without an [emails] field, although the
    parameters hold the claim [user@example.net]. *)
Theorem Strategy_does_not_merge_email :
  ∃ this,
    @Strategy env (Some options) verify4 = Return this ∧
    get_prop params "email" = Return (VStr "user@example.net") ∧
    call_verify (_verify this) req accessToken refreshToken params (VObj profile) verified
    = (VObj profile, Call verify4 [Val req; Val accessToken; Val refreshToken;
                                   Val (VObj profile); Fn verified]) ∧
    profile !! "emails" = None ∧
    ¬ has_single_email profile (VStr "user@example.net").
Proof. eexists. repeat split; try reflexivity. discriminate. Qed.

(** C2, at a callback declared with three parameters: the strategy built from
    the example options calls the application's callback all the same, and
    reports no error through [this.error]; the wrapper, had it been
    installed, would have reported the error and made no call. *)
Theorem Strategy_does_not_check_arity :
  ∃ this,
    @Strategy env (Some options) verify3 = Return this ∧
    documented_arguments (fn_length verify3)
      req accessToken refreshToken params (VObj profile) verified = None ∧
    call_verify (_verify this) req accessToken refreshToken params (VObj profile) verified
    = (VObj profile, Call verify3 [Val req; Val accessToken; Val refreshToken;
                                   Val (VObj profile); Fn verified]) ∧
    ∃ profile',
      call_verify (verifyWrapper options verify3)
        req accessToken refreshToken params (VObj profile) verified
      = (profile', StrategyError
          (Error "VKontakteStrategy: verify callback must take 4 or 5 parameters")).
Proof. eexists. repeat split; try reflexivity. eexists. reflexivity. Qed.

(** The example instance of C3: the base constructor accepts the resolved
    options with the application's function, and the client then calls that
    function with its own five arguments. *)
Lemma Strategy_registers_verify_itself_witness :
  ∃ this,
    @Strategy env (Some options) verify4 = Return this ∧
    @OAuth2Strategy_call env (_options this) (Supplied verify4) = None ∧
    _verify this = Supplied verify4 ∧
    (∀ options', _verify this ≠ verifyWrapper options' verify4) ∧
    call_verify (_verify this) req accessToken refreshToken params (VObj profile) verified
    = (VObj profile, Call verify4 [Val req; Val accessToken; Val refreshToken;
                                   Val (VObj profile); Fn verified]).
Proof.
  eexists. split; [reflexivity |]. split; [reflexivity |].
  destruct (@Strategy_registers_verify_itself env (Some options) verify4)
    as [_ Hregistered].
  destruct (Hregistered _ eq_refl) as (Hv & Hne & Hcall).
  split; [exact Hv |]. split; [exact Hne |]. apply Hcall.
Defined.

(** The example instance of C6. *)
Lemma Strategy_defaults_witness :
  omits_optional_fields (Some options) ∧
  ∃ this,
    @Strategy env (Some options) verify4 = Return this ∧
    _options this !! "passReqToCallback" = Some (VBool true) ∧
    _options this !! "authorizationURL" = Some (VStr "https://oauth.vk.com/authorize") ∧
    _options this !! "tokenURL" = Some (VStr "https://oauth.vk.com/access_token") ∧
    _options this !! "scopeSeparator" = Some (VStr ",") ∧
    lang this = VStr "en" ∧
    photoSize this = VNum 200 ∧
    _apiVersion this = VStr "5.110" ∧
    _profileURL this = VStr "https://api.vk.com/method/users.get".
Proof.
  assert (Homit : omits_optional_fields (Some options)).
  { repeat constructor. }
  split; [exact Homit |].
  eexists. split; [reflexivity |].
  destruct (@Strategy_defaults env (Some options) verify4) as [_ Hreturn].
  destruct (Hreturn _ eq_refl) as [Hpass Hdefaults].
  split; [exact Hpass |]. exact (Hdefaults Homit).
Defined.

End ExampleStrategy.

(** ** The profile request *)

Section Fields.

Lemma append_assoc (a b c : string) : (a +:+ b) +:+ c = a +:+ b +:+ c.
Proof.
  induction a as [| x a IH]; [reflexivity |].
  change (String x ((a +:+ b) +:+ c) = String x (a +:+ b +:+ c)).
  by rewrite IH.
Qed.


Lemma existsb_strict_eq_strs (seen : list string) (f : string) :
  existsb (strict_eq (VStr f)) (VStr <$> seen) = bool_decide (f ∈ seen).
Proof.
  induction seen as [| g seen IH]; cbn.
  - symmetry. apply bool_decide_eq_false. apply not_elem_of_nil.
  - rewrite IH. destruct (String.eqb_spec f g) as [-> | Hne]; cbn.
    + symmetry. apply bool_decide_eq_true. apply elem_of_cons; by left.
    + apply bool_decide_ext. rewrite elem_of_cons. naive_solver.
Qed.

Lemma push_new_strs (seen : list string) (f : string) :
  push_new (VStr <$> seen) (VStr f)
  = VStr <$> (if decide (f ∈ seen) then seen else seen ++ [f]).
Proof.
  unfold push_new, not_indexOf. rewrite existsb_strict_eq_strs.
  destruct (decide (f ∈ seen)) as [Hin | Hnin].
  - by rewrite bool_decide_eq_true_2.
  - rewrite bool_decide_eq_false_2 by done. cbn. by rewrite fmap_app.
Qed.

(** The [forEach] loop computes the first occurrences. *)
Lemma fold_push_new_strs (l seen : list string) :
  fold_left push_new (VStr <$> l) (VStr <$> seen)
  = VStr <$> (seen ++ first_occurrences seen l).
Proof.
  revert seen. induction l as [| f l IH]; intros seen; cbn.
  - by rewrite app_nil_r.
  - rewrite push_new_strs. destruct (decide (f ∈ seen)).
    + apply IH.
    + rewrite IH. by rewrite <- app_assoc.
Qed.


Lemma first_occurrences_elem seen l f :
  f ∈ first_occurrences seen l ↔ f ∈ l ∧ f ∉ seen.
Proof.
  revert seen. induction l as [| g l IH]; intros seen; cbn.
  - rewrite elem_of_nil. naive_solver.
  - destruct (decide (g ∈ seen)) as [Hg | Hg].
    + rewrite IH, elem_of_cons. naive_solver.
    + rewrite elem_of_cons, IH, elem_of_cons, elem_of_app, list_elem_of_singleton.
      destruct (decide (f = g)); naive_solver.
Qed.







End Fields.

(** ** The profile response *)

Section Fetch.
Context `{Environment}.

(** A delivered profile comes from the one successful path of the callback. *)
Lemma userProfile_callback_profile err body e p :
  userProfile_callback err body = Done e (Some p) →
  e = None ∧ truthy err = false ∧
  ∃ json error response record parsed,
    JSON_parse body = Some json ∧
    get_prop json "error" = Return error ∧ truthy error = false ∧
    get_prop json "response" = Return response ∧
    get_index response 0 = Return record ∧
    parse record = Return parsed ∧
    p = VObj (<["_json" := record]> (<["_raw" := VStr body]>
             (<["provider" := VStr "vkontakte"]> parsed))).
Proof.
  unfold userProfile_callback.
  destruct (truthy err); [discriminate |].
  destruct (JSON_parse body) as [json |]; cbn [from_option mbind completion_bind];
    [| discriminate].
  destruct (get_prop json "error") as [error | ?] eqn:Herror;
    cbn [mbind completion_bind]; [| discriminate].
  destruct (truthy error) eqn:Hfalsy.
  { destruct (get_prop error "error_msg"); cbn [mbind completion_bind]; [| discriminate].
    destruct (get_prop error "error_code"); cbn [mbind completion_bind]; discriminate. }
  destruct (get_prop json "response") as [response | ?] eqn:Hresponse;
    cbn [mbind completion_bind]; [| discriminate].
  destruct (get_index response 0) as [record | ?] eqn:Hrecord;
    cbn [mbind completion_bind]; [| discriminate].
  destruct (parse record) as [parsed | ?] eqn:Hparsed;
    cbn [mbind completion_bind]; [| discriminate].
  intros [= <- <-]. do 2 (split; [reflexivity |]).
  exists json, error, response, record, parsed. by repeat split.
Qed.

(** [done] receives an error or a profile, never both and never neither. *)
Lemma userProfile_callback_exclusive err body :
  (∃ e, userProfile_callback err body = Done (Some e) None) ∨
  (∃ p, userProfile_callback err body = Done None (Some p)).
Proof.
  unfold userProfile_callback.
  destruct (truthy err); [eauto |].
  match goal with |- context [match ?c with Return _ => _ | Throw _ => _ end] =>
    destruct c end; eauto.
Qed.

(** C4: when the body of the profile response is
    [{ response: [ { uid: 1, first_name: "A", last_name: "B", sex: 2,
    photo_200: "http://x" } ] }], [done] receives a profile with [id] 1,
    [displayName] ["A B"], [gender] ["male"], [photos]
    [[{ value: "http://x" }]] and [provider] ["vkontakte"]; and every profile
    that [done] receives has [provider] ["vkontakte"]. *)
Theorem userProfile_callback_normalizes :
  (∀ err body, truthy err = false →
    JSON_parse body = Some Examples.profile_json →
    ∃ profile : gmap string value,
      userProfile_callback err body = Done None (Some (VObj profile)) ∧
      profile !! "id" = Some (VNum 1) ∧
      profile !! "displayName" = Some (VStr "A B") ∧
      profile !! "gender" = Some (VStr "male") ∧
      profile !! "photos" = Some (VArr [VObj (<["value" := VStr "http://x"]> ∅)]) ∧
      profile !! "provider" = Some (VStr "vkontakte")) ∧
  (∀ err body e p, userProfile_callback err body = Done e (Some p) →
    ∃ profile : gmap string value,
      p = VObj profile ∧ profile !! "provider" = Some (VStr "vkontakte")).
Proof.
  split.
  - intros err body Herr Hbody. unfold userProfile_callback.
    rewrite Herr, Hbody. eexists. split; [reflexivity |].
    repeat split; reflexivity.
  - intros err body e p Hdone.
    apply userProfile_callback_profile in Hdone
      as (_ & _ & json & error & response & record & parsed & _ & _ & _ & _ & _ & _ & ->).
    eexists. split; [reflexivity |]. by simplify_map_eq.
Qed.

(** C7: when there is no transport error and the body of the profile response
    parses as JSON with an error object, [done] receives a
    [VkontakteAPIError] that carries the object's [error_msg] and
    [error_code], and no profile; in general [done] receives an error or a
    profile, not both. *)
Theorem userProfile_callback_api_error :
  (∀ err body (json error : gmap string value), truthy err = false →
    JSON_parse body = Some (VObj json) →
    json !! "error" = Some (VObj error) →
    userProfile_callback err body
    = Done (Some (VkontakteAPIError (opt error "error_msg") (opt error "error_code"))) None) ∧
  (∀ err body,
    (∃ e, userProfile_callback err body = Done (Some e) None) ∨
    (∃ p, userProfile_callback err body = Done None (Some p))).
Proof.
  split; [| apply userProfile_callback_exclusive].
  intros err body json error Herr Hbody Herror.
  unfold userProfile_callback. rewrite Herr, Hbody.
  cbn [from_option mbind completion_bind get_prop]. rewrite Herror.
  reflexivity.
Qed.

(** C9, as the code has it: a delivered profile keeps the body unmodified in
    [_raw], and in [_json] the first element of the [response] array of the
    parsed body (the user record), not the parsed body itself. *)
Theorem userProfile_callback_raw_json err body e p :
  userProfile_callback err body = Done e (Some p) →
  ∃ (profile : gmap string value) json response record,
    p = VObj profile ∧
    JSON_parse body = Some json ∧
    get_prop json "response" = Return response ∧
    get_index response 0 = Return record ∧
    profile !! "_raw" = Some (VStr body) ∧
    profile !! "_json" = Some record.
Proof.
  intros Hdone.
  apply userProfile_callback_profile in Hdone
    as (_ & _ & json & error & response & record & parsed
        & Hjson & _ & _ & Hresponse & Hrecord & _ & ->).
  exists (<["_json" := record]> (<["_raw" := VStr body]>
           (<["provider" := VStr "vkontakte"]> parsed))), json, response, record.
  repeat split; try done; by simplify_map_eq.
Qed.

End Fetch.

(** ** The token error response *)

Section TokenError.
Context `{Environment}.

(** C8, as the code has it: a body that parses as JSON with an object-shaped
    [error] field gives a [VkontakteTokenError] carrying that object's
    [error_msg] and [error_code]; a body that parses as JSON to a value other
    than [null] whose [error] field is missing or not object-shaped is
    answered by the base class's parser; a token error is neither an answer
    of the base class's parser nor a [VkontakteAPIError]. *)
Theorem parseErrorResponse_cases body status :
  (∀ (json : gmap string value) error,
    JSON_parse body = Some (VObj json) →
    json !! "error" = Some error →
    object_shaped error = true →
    ∃ error_msg error_code,
      get_prop error "error_msg" = Return error_msg ∧
      get_prop error "error_code" = Return error_code ∧
      parseErrorResponse body status
      = Return (inl (VkontakteTokenError error_msg error_code))) ∧
  (∀ json error,
    JSON_parse body = Some json →
    get_prop json "error" = Return error →
    object_shaped error = false →
    parseErrorResponse body status
    = inr <$> OAuth2Strategy_parseErrorResponse body status) ∧
  (∀ message code (other : DefaultError) message' code',
    @inl exn DefaultError (VkontakteTokenError message code) ≠ inr other ∧
    VkontakteTokenError message code ≠ VkontakteAPIError message' code').
Proof.
  split; [| split].
  - intros json error Hbody Herror Hshape.
    unfold parseErrorResponse. rewrite Hbody.
    cbn [from_option mbind completion_bind get_prop]. rewrite Herror.
    cbn [from_option id]. unfold object_shaped in Hshape. rewrite Hshape.
    destruct error; try discriminate Hshape; cbn; eauto.
  - intros json error Hbody Herror Hshape.
    unfold parseErrorResponse. rewrite Hbody.
    cbn [from_option mbind completion_bind]. rewrite Herror.
    cbn [mbind completion_bind]. unfold object_shaped in Hshape. by rewrite Hshape.
  - intros. split; discriminate.
Qed.

(** C10: a token-endpoint body that is not valid JSON makes
    [parseErrorResponse] throw the parse exception: it returns no error
    value and does not reach the base class's parser.  The callback of the
    profile request, on such a body, hands the exception to [done]. *)
Theorem parseErrorResponse_invalid_JSON body status :
  JSON_parse body = None →
  parseErrorResponse body status = Throw SyntaxError ∧
  (∀ answer, parseErrorResponse body status ≠ Return answer) ∧
  (∀ err, truthy err = false →
    userProfile_callback err body = Done (Some SyntaxError) None).
Proof.
  intros Hbody. unfold parseErrorResponse, userProfile_callback. rewrite Hbody.
  split; [reflexivity |]. split; [discriminate |].
  by intros err ->.
Qed.

End TokenError.

(** ** The examples of the specification *)

Section Worked.
Import Reference Examples.

Lemma profile_body_parses : json_parse profile_body = Some profile_json.
Proof. vm_compute. reflexivity. Qed.

Lemma profile_body_done :
  ∃ profile : gmap string value,
    @userProfile_callback env VNull profile_body = Done None (Some (VObj profile)).
Proof. eexists. vm_compute. reflexivity. Qed.

Lemma token_error_body_parses :
  json_parse token_error_body
  = Some (VObj (<["error" := VObj (<["error_msg" := VStr "invalid_grant"]>
                                   (<["error_code" := VNum 100]> ∅))]> ∅)).
Proof. vm_compute. reflexivity. Qed.

Lemma oauth2_error_body_parses :
  json_parse oauth2_error_body
  = Some (VObj (<["error" := VStr "invalid_grant"]>
               (<["error_description" := VStr "Code is expired."]> ∅))).
Proof. vm_compute. reflexivity. Qed.

(** The example of C4, from the text of the body. *)
Lemma userProfile_callback_normalizes_witness :
  @JSON_parse env profile_body = Some profile_json ∧
  ∃ profile : gmap string value,
    @userProfile_callback env VNull profile_body = Done None (Some (VObj profile)) ∧
    profile !! "id" = Some (VNum 1) ∧
    profile !! "displayName" = Some (VStr "A B") ∧
    profile !! "gender" = Some (VStr "male") ∧
    profile !! "photos" = Some (VArr [VObj (<["value" := VStr "http://x"]> ∅)]) ∧
    profile !! "provider" = Some (VStr "vkontakte").
Proof.
  split; [exact profile_body_parses |].
  destruct (@userProfile_callback_normalizes env) as [Hexample _].
  exact (Hexample VNull profile_body eq_refl profile_body_parses).
Defined.

(** The example of C7: [{ error: { error_msg: "Invalid token", error_code: 5 } }]. *)
Lemma userProfile_callback_api_error_witness :
  @userProfile_callback env VNull api_error_body
  = Done (Some (VkontakteAPIError (VStr "Invalid token") (VNum 5))) None.
Proof.
  destruct (@userProfile_callback_api_error env) as [Hexample _].
  refine (Hexample VNull api_error_body
            (<["error" := VObj (<["error_msg" := VStr "Invalid token"]>
                               (<["error_code" := VNum 5]> ∅))]> ∅)
            (<["error_msg" := VStr "Invalid token"]> (<["error_code" := VNum 5]> ∅))
            eq_refl _ eq_refl).
  vm_compute. reflexivity.
Defined.

(** The example of C9. *)
Lemma userProfile_callback_raw_json_witness :
  ∃ profile : gmap string value,
    @userProfile_callback env VNull profile_body = Done None (Some (VObj profile)) ∧
    profile !! "_raw" = Some (VStr profile_body) ∧
    profile !! "_json" = Some user_record.
Proof.
  destruct profile_body_done as [profile Hdone].
  exists profile. split; [exact Hdone |].
  destruct (@userProfile_callback_raw_json env VNull profile_body _ _ Hdone)
    as (profile' & json & response & record & [= <-] & Hjson & Hresponse & Hrecord
        & Hraw & Hrecord').
  split; [exact Hraw |].
  change (json_parse profile_body = Some json) in Hjson.
  rewrite profile_body_parses in Hjson. injection Hjson as <-.
  vm_compute in Hresponse. injection Hresponse as <-.
  vm_compute in Hrecord. injection Hrecord as <-. exact Hrecord'.
Defined.

(** C9 as stated fails on the example of the specification: the delivered
    [_json] is the user record, which is not the parsed body. *)
Lemma userProfile_callback_json_is_not_the_parsed_body :
  ∃ profile : gmap string value,
    @userProfile_callback env VNull profile_body = Done None (Some (VObj profile)) ∧
    @JSON_parse env profile_body = Some profile_json ∧
    profile !! "_json" = Some user_record ∧
    profile !! "_json" ≠ Some profile_json.
Proof.
  eexists. split; [vm_compute; reflexivity |].
  split; [exact profile_body_parses |].
  split; [vm_compute; reflexivity |].
  vm_compute. discriminate.
Qed.

(** The examples of C8: the provider's token error, and a plain OAuth2
    error body, which goes to the base class's parser. *)
Lemma parseErrorResponse_cases_witness :
  @parseErrorResponse env token_error_body status
  = Return (inl (VkontakteTokenError (VStr "invalid_grant") (VNum 100))) ∧
  @parseErrorResponse env oauth2_error_body status
  = inr <$> @OAuth2Strategy_parseErrorResponse env oauth2_error_body status.
Proof.
  split.
  - destruct (@parseErrorResponse_cases env token_error_body status) as (Hobject & _ & _).
    destruct (Hobject _ (VObj (<["error_msg" := VStr "invalid_grant"]>
                               (<["error_code" := VNum 100]> ∅)))
                token_error_body_parses eq_refl eq_refl)
      as (error_msg & error_code & Hmsg & Hcode & Htoken).
    vm_compute in Hmsg. injection Hmsg as <-.
    vm_compute in Hcode. injection Hcode as <-.
    exact Htoken.
  - destruct (@parseErrorResponse_cases env oauth2_error_body status) as (_ & Hother & _).
    exact (Hother _ (VStr "invalid_grant") oauth2_error_body_parses eq_refl eq_refl).
Defined.

(** C8 as stated fails on the body [null]: it parses as JSON and has no
    object-shaped [error] field, yet reading [json.error] throws, and the
    base class's parser is not consulted. *)
Lemma parseErrorResponse_null_body_throws :
  @JSON_parse env null_body = Some VNull ∧
  (∀ (json : gmap string value) error,
    @JSON_parse env null_body = Some (VObj json) →
    json !! "error" = Some error → object_shaped error = false) ∧
  @parseErrorResponse env null_body status = Throw TypeError ∧
  @parseErrorResponse env null_body status
  ≠ inr <$> @OAuth2Strategy_parseErrorResponse env null_body status.
Proof.
  split; [vm_compute; reflexivity |].
  split; [intros json error Hjson; vm_compute in Hjson; discriminate |].
  split; [vm_compute; reflexivity |].
  vm_compute. discriminate.
Qed.

(** The example of C10. *)
Lemma parseErrorResponse_invalid_JSON_witness :
  @JSON_parse env invalid_body = None ∧
  @parseErrorResponse env invalid_body status = Throw SyntaxError ∧
  @userProfile_callback env VNull invalid_body = Done (Some SyntaxError) None.
Proof.
  assert (Hinvalid : @JSON_parse env invalid_body = None) by (vm_compute; reflexivity).
  split; [exact Hinvalid |].
  destruct (@parseErrorResponse_invalid_JSON env invalid_body status Hinvalid)
    as (Hthrow & _ & Hdone).
  split; [exact Hthrow | exact (Hdone VNull eq_refl)].
Defined.

End Worked.

(** ** More on construction *)

Section MoreConstruction.
Context `{Environment}.

Lemma truthy_js_or a b : truthy b = true → truthy (js_or a b) = true.
Proof. intros Hb. unfold js_or. by destruct (truthy a) eqn:Ha. Qed.

Lemma js_or_truthy a b : truthy a = true → js_or a b = a.
Proof. unfold js_or. by intros ->. Qed.

Lemma caller_or_default_js_or given dflt : caller_or_default given dflt (js_or given dflt).
Proof. unfold caller_or_default, js_or. by destruct (truthy given). Qed.

(** The instance the constructor returns, field by field. *)
Lemma Strategy_Return options verify this :
  Strategy options verify = Return this →
  let o := default ∅ options in
  lang this = js_or (opt o "lang") (VStr "en") ∧
  photoSize this = js_or (opt o "photoSize") (VNum 200) ∧
  _profileURL this = js_or (opt o "profileURL") (VStr "https://api.vk.com/method/users.get") ∧
  _profileFields this = js_or (opt o "profileFields") (VArr []) ∧
  _apiVersion this = js_or (opt o "apiVersion") (VStr "5.110") ∧
  _options this =
    delete "photoSize" (delete "lang"
      (<["passReqToCallback" := VBool true]>
      (<["scopeSeparator" := js_or (opt o "scopeSeparator") (VStr ",")]>
      (<["tokenURL" := js_or (opt o "tokenURL") (VStr "https://oauth.vk.com/access_token")]>
      (<["authorizationURL" :=
          js_or (opt o "authorizationURL") (VStr "https://oauth.vk.com/authorize")]> o))))).
Proof.
  unfold Strategy. destruct (OAuth2Strategy_call _ _); [discriminate |].
  intros [= <-]. cbn [lang photoSize _profileURL _profileFields _apiVersion _options].
  rewrite ?opt_delete_ne, ?opt_insert_ne by done. by repeat split.
Qed.

(** X2: the options object handed to the OAuth2 client never holds [lang] or
    [photoSize], and every key the constructor does not assign or delete
    reaches the client with the caller's value (or stays absent). *)
Theorem Strategy_forwards_options options verify this :
  Strategy options verify = Return this →
  _options this !! "lang" = None ∧
  _options this !! "photoSize" = None ∧
  (∀ k, k ∉ constructor_keys → _options this !! k = default ∅ options !! k).
Proof.
  intros Hthis. apply Strategy_Return in Hthis as (_ & _ & _ & _ & _ & ->).
  split; [by simplify_map_eq |]. split; [by simplify_map_eq |].
  intros k Hk. unfold constructor_keys in Hk.
  rewrite !not_elem_of_cons in Hk. destruct Hk as (? & ? & ? & ? & ? & ? & _).
  by rewrite !lookup_delete_ne, !lookup_insert_ne.
Qed.

(** X3: each option with a default is resolved by [||]: a truthy value of
    the caller is kept as it is, and a missing or falsy one (the empty
    string, [0], [null], [false]) is replaced by the default. *)
Theorem Strategy_keeps_caller_values options verify this :
  Strategy options verify = Return this →
  let o := default ∅ options in
  caller_or_default (opt o "authorizationURL") (VStr "https://oauth.vk.com/authorize")
    (opt (_options this) "authorizationURL") ∧
  caller_or_default (opt o "tokenURL") (VStr "https://oauth.vk.com/access_token")
    (opt (_options this) "tokenURL") ∧
  caller_or_default (opt o "scopeSeparator") (VStr ",") (opt (_options this) "scopeSeparator") ∧
  caller_or_default (opt o "lang") (VStr "en") (lang this) ∧
  caller_or_default (opt o "photoSize") (VNum 200) (photoSize this) ∧
  caller_or_default (opt o "profileURL") (VStr "https://api.vk.com/method/users.get")
    (_profileURL this) ∧
  caller_or_default (opt o "profileFields") (VArr []) (_profileFields this) ∧
  caller_or_default (opt o "apiVersion") (VStr "5.110") (_apiVersion this).
Proof.
  intros Hthis o.
  apply Strategy_Return in Hthis as (-> & -> & -> & -> & -> & ->). fold o.
  set (m := delete _ _).
  assert (Hauth : opt m "authorizationURL"
                  = js_or (opt o "authorizationURL") (VStr "https://oauth.vk.com/authorize"))
    by (subst m; unfold opt at 1; by simplify_map_eq).
  assert (Htoken : opt m "tokenURL"
                   = js_or (opt o "tokenURL") (VStr "https://oauth.vk.com/access_token"))
    by (subst m; unfold opt at 1; by simplify_map_eq).
  assert (Hsep : opt m "scopeSeparator" = js_or (opt o "scopeSeparator") (VStr ","))
    by (subst m; unfold opt at 1; by simplify_map_eq).
  rewrite Hauth, Htoken, Hsep.
  repeat split; apply caller_or_default_js_or.
Qed.

Lemma insert_js_or_id (m : gmap string value) k v d :
  m !! k = Some v → truthy v = true → <[k := js_or (opt m k) d]> m = m.
Proof.
  intros Hk Hv. unfold opt. rewrite Hk. cbn [from_option id].
  rewrite js_or_truthy by done. by apply insert_id.
Qed.

(** X4: a constructed instance always has a truthy [lang], so the guard
    [if (this.lang)] of [userProfile] always holds for it: every URL it
    requests ends in [&https=1&lang=<lang>]. *)
Theorem Strategy_always_sends_lang options verify this :
  Strategy options verify = Return this →
  truthy (lang this) = true ∧
  ∀ url, userProfile_url this = Return url →
    ∃ front, url = front +:+ "&https=1" +:+ "&lang=" +:+ to_string (lang this).
Proof.
  intros Hthis.
  assert (Hlang : truthy (lang this) = true).
  { apply Strategy_Return in Hthis as (-> & _). by apply truthy_js_or. }
  split; [exact Hlang |].
  intros url. unfold userProfile_url.
  destruct (userProfile_fields this) as [fields | e]; cbn [mbind completion_bind];
    [| discriminate].
  rewrite Hlang. intros [= <-]. unfold js_add.
  exists (to_string (_profileURL this) +:+ "?fields=" +:+ js_join fields ","
          +:+ "&v=" +:+ to_string (_apiVersion this)).
  by rewrite !append_assoc.
Qed.

(** X5: the constructor changes the caller's options object in place.  A
    second strategy built from that object, in the state the first
    construction handed it to the OAuth2 client, forwards the very same
    options and keeps the profile URL, profile fields and API version, but
    falls back to the locale [en] and the photo size [200], whatever the
    caller chose the first time. *)
Theorem Strategy_on_forwarded_options options verify verify' this this' :
  Strategy options verify = Return this →
  Strategy (Some (_options this)) verify' = Return this' →
  _options this' = _options this ∧
  lang this' = VStr "en" ∧
  photoSize this' = VNum 200 ∧
  _profileURL this' = _profileURL this ∧
  _profileFields this' = _profileFields this ∧
  _apiVersion this' = _apiVersion this.
Proof.
  intros Hthis Hthis'.
  apply Strategy_Return in Hthis as (_ & _ & Hurl & Hfields & Hversion & Hoptions).
  apply Strategy_Return in Hthis' as (-> & -> & -> & -> & -> & ->).
  cbn [from_option id]. rewrite Hurl, Hfields, Hversion.
  set (o := default ∅ options) in *. set (m := _options this) in *.
  assert (Hlang : m !! "lang" = None) by (rewrite Hoptions; by simplify_map_eq).
  assert (Hsize : m !! "photoSize" = None) by (rewrite Hoptions; by simplify_map_eq).
  assert (Hpass : m !! "passReqToCallback" = Some (VBool true))
    by (rewrite Hoptions; by simplify_map_eq).
  assert (Hauth : m !! "authorizationURL"
                  = Some (js_or (opt o "authorizationURL") (VStr "https://oauth.vk.com/authorize")))
    by (rewrite Hoptions; by simplify_map_eq).
  assert (Htoken : m !! "tokenURL"
                   = Some (js_or (opt o "tokenURL") (VStr "https://oauth.vk.com/access_token")))
    by (rewrite Hoptions; by simplify_map_eq).
  assert (Hsep : m !! "scopeSeparator" = Some (js_or (opt o "scopeSeparator") (VStr ",")))
    by (rewrite Hoptions; by simplify_map_eq).
  assert (Hrest : ∀ k, k ∉ constructor_keys → opt m k = opt o k).
  { intros k Hk. unfold constructor_keys in Hk.
    rewrite !not_elem_of_cons in Hk. destruct Hk as (? & ? & ? & ? & ? & ? & _).
    rewrite Hoptions. by rewrite !opt_delete_ne, !opt_insert_ne. }
  rewrite (insert_js_or_id m "authorizationURL" _ _ Hauth) by (by apply truthy_js_or).
  rewrite (insert_js_or_id m "tokenURL" _ _ Htoken) by (by apply truthy_js_or).
  rewrite (insert_js_or_id m "scopeSeparator" _ _ Hsep) by (by apply truthy_js_or).
  rewrite (insert_id m "passReqToCallback" _ Hpass).
  rewrite (delete_id m "lang" Hlang), (delete_id m "photoSize" Hsize).
  rewrite (opt_None m "lang" Hlang), (opt_None m "photoSize" Hsize).
  rewrite !Hrest by (unfold constructor_keys; rewrite !not_elem_of_cons, elem_of_nil; naive_solver).
  by repeat split.
Qed.

(** X13: when the caller configured [profileFields] as a truthy value that
    is not an array (the string ["city"], say), the constructor accepts it,
    and [userProfile] then throws a [TypeError] at [forEach]: synchronously,
    with no request issued and [done] not called. *)
Theorem userProfile_throws_on_fields_not_array options verify this accessToken v :
  Strategy options verify = Return this →
  default ∅ options !! "profileFields" = Some v →
  truthy v = true →
  (∀ l, v ≠ VArr l) →
  userProfile this accessToken = Throw TypeError.
Proof.
  intros Hthis Hv Htruthy Hnot.
  apply Strategy_Return in Hthis as (_ & _ & _ & Hfields & _).
  unfold opt in Hfields. rewrite Hv in Hfields. cbn [from_option id] in Hfields.
  rewrite js_or_truthy in Hfields by done.
  unfold userProfile, userProfile_url, userProfile_fields. rewrite Hfields.
  destruct v; try reflexivity. by destruct (Hnot l).
Qed.

(** X14: for every configuration that omits the optional fields and lists
    no profile fields, [userProfile] requests exactly
    [https://api.vk.com/method/users.get?fields=uid,first_name,last_name,screen_name,sex,photo_200&v=5.110&https=1&lang=en]
    with the access token it was given. *)
Theorem userProfile_default_request options verify this accessToken :
  Strategy options verify = Return this →
  omits_optional_fields options →
  truthy (opt (default ∅ options) "profileFields") = false →
  userProfile this accessToken = Return (Request
    ("https://api.vk.com/method/users.get"
     +:+ "?fields=uid,first_name,last_name,screen_name,sex,photo_200"
     +:+ "&v=5.110&https=1&lang=en") accessToken).
Proof.
  intros Hthis Homit Hfields.
  apply Strategy_Return in Hthis as (Hlang & Hsize & Hurl & Hpf & Hversion & _).
  assert (Hk : ∀ k, k ∈ optional_fields → opt (default ∅ options) k = VUndefined).
  { intros k Hin. apply opt_None. revert k Hin. by apply Forall_forall. }
  unfold optional_fields in Hk.
  rewrite Hk in Hlang, Hsize, Hurl, Hversion by set_solver.
  unfold js_or in Hpf. rewrite Hfields in Hpf.
  unfold userProfile, userProfile_url, userProfile_fields.
  rewrite Hlang, Hsize, Hurl, Hpf, Hversion. reflexivity.
Qed.

End MoreConstruction.

Section MoreConstructionExamples.
Import Reference Examples Cases.

Lemma Strategy_options_ru : @Strategy env (Some options_ru) verify4 = Return this_ru.
Proof. vm_compute. reflexivity. Qed.

Lemma Strategy_options_ru_again :
  @Strategy env (Some (_options this_ru)) verify3 = Return this_ru_again.
Proof. vm_compute. reflexivity. Qed.

Lemma Strategy_options_fields_string :
  @Strategy env (Some options_fields_string) verify4 = Return this_fields_string.
Proof. vm_compute. reflexivity. Qed.

Lemma Strategy_options_default : @Strategy env (Some options) verify4 = Return this_default.
Proof. vm_compute. reflexivity. Qed.

(** The example of X2: a caller who set [lang], [photoSize] and [state]. *)
Lemma Strategy_forwards_options_witness :
  @Strategy env (Some options_ru) verify4 = Return this_ru ∧
  _options this_ru !! "lang" = None ∧
  _options this_ru !! "photoSize" = None ∧
  _options this_ru !! "state" = Some (VBool true) ∧
  _options this_ru !! "clientID" = Some (VStr "123-456-789").
Proof.
  split; [exact Strategy_options_ru |].
  destruct (@Strategy_forwards_options env (Some options_ru) verify4 this_ru
              Strategy_options_ru) as (Hlang & Hsize & Hrest).
  split; [exact Hlang |]. split; [exact Hsize |].
  split; (rewrite Hrest; [reflexivity | apply (bool_decide_unpack _); vm_compute; exact I]).
Defined.

(** The example of X3: [ru] and [100] are kept, the empty version is replaced. *)
Lemma Strategy_keeps_caller_values_witness :
  @Strategy env (Some options_ru) verify4 = Return this_ru ∧
  lang this_ru = VStr "ru" ∧ photoSize this_ru = VNum 100 ∧
  _apiVersion this_ru = VStr "5.110".
Proof.
  split; [exact Strategy_options_ru |].
  destruct (@Strategy_keeps_caller_values env (Some options_ru) verify4 this_ru
              Strategy_options_ru) as (_ & _ & _ & Hlang & Hsize & _ & _ & Hversion).
  split; [exact Hlang |]. split; [exact Hsize | exact Hversion].
Defined.

(** The example of X4. *)
Lemma Strategy_always_sends_lang_witness :
  @Strategy env (Some options_ru) verify4 = Return this_ru ∧
  truthy (lang this_ru) = true ∧
  ∃ front, userProfile_url this_ru = Return (front +:+ "&https=1" +:+ "&lang=" +:+ "ru").
Proof.
  split; [exact Strategy_options_ru |].
  destruct (@Strategy_always_sends_lang env (Some options_ru) verify4 this_ru
              Strategy_options_ru) as (Hlang & Hurl).
  split; [exact Hlang |].
  destruct (Hurl _ eq_refl) as [front Hfront].
  exists front. exact (f_equal Return Hfront).
Defined.

(** The example of X5: the second strategy has lost [ru] and [100]. *)
Lemma Strategy_on_forwarded_options_witness :
  @Strategy env (Some options_ru) verify4 = Return this_ru ∧
  lang this_ru = VStr "ru" ∧ photoSize this_ru = VNum 100 ∧
  @Strategy env (Some (_options this_ru)) verify3 = Return this_ru_again ∧
  _options this_ru_again = _options this_ru ∧
  lang this_ru_again = VStr "en" ∧ photoSize this_ru_again = VNum 200.
Proof.
  split; [exact Strategy_options_ru |].
  split; [reflexivity |]. split; [reflexivity |].
  split; [exact Strategy_options_ru_again |].
  destruct (@Strategy_on_forwarded_options env (Some options_ru) verify4 verify3
              this_ru this_ru_again Strategy_options_ru Strategy_options_ru_again)
    as (Hoptions & Hlang & Hsize & _).
  split; [exact Hoptions |]. split; [exact Hlang | exact Hsize].
Defined.

(** The example of X13: [profileFields: 'city']. *)
Lemma userProfile_throws_on_fields_not_array_witness :
  @Strategy env (Some options_fields_string) verify4 = Return this_fields_string ∧
  _profileFields this_fields_string = VStr "city" ∧
  userProfile this_fields_string accessToken = Throw TypeError.
Proof.
  split; [exact Strategy_options_fields_string |]. split; [reflexivity |].
  refine (@userProfile_throws_on_fields_not_array env (Some options_fields_string) verify4
            this_fields_string accessToken (VStr "city")
            Strategy_options_fields_string eq_refl eq_refl _).
  intros l. discriminate.
Defined.

(** The example of X14. *)
Lemma userProfile_default_request_witness :
  omits_optional_fields (Some options) ∧
  @Strategy env (Some options) verify4 = Return this_default ∧
  userProfile this_default accessToken = Return (Request
    ("https://api.vk.com/method/users.get"
     +:+ "?fields=uid,first_name,last_name,screen_name,sex,photo_200"
     +:+ "&v=5.110&https=1&lang=en") accessToken).
Proof.
  assert (Homit : omits_optional_fields (Some options)) by repeat constructor.
  split; [exact Homit |]. split; [exact Strategy_options_default |].
  exact (@userProfile_default_request env (Some options) verify4 this_default accessToken
           Strategy_options_default Homit eq_refl).
Defined.

End MoreConstructionExamples.

(** ** More on the parameters of the authorization request and on the wrapper *)

Section MoreWrapper.

(** X1: [authorizationParams] forwards nothing but [display]: every other
    option is left out, [display] is forwarded with the caller's value exactly
    when that value is truthy, and so no falsy parameter is ever produced. *)
Theorem authorizationParams_only_display options :
  (∀ k, k ≠ "display" → authorizationParams options !! k = None) ∧
  authorizationParams options !! "display"
  = (if truthy (opt options "display") then options !! "display" else None) ∧
  (∀ k v, authorizationParams options !! k = Some v → truthy v = true).
Proof.
  unfold authorizationParams.
  destruct (truthy (opt options "display")) eqn:Hdisplay.
  - split; [intros k Hk; by rewrite lookup_insert_ne |].
    unfold opt in *. destruct (options !! "display") as [d |] eqn:Hd; [| discriminate].
    cbn [from_option id] in *. split; [apply lookup_insert_eq |].
    intros k v. destruct (decide (k = "display")) as [-> | Hk].
    + rewrite lookup_insert_eq. by intros [= <-].
    + by rewrite lookup_insert_ne.
  - split; [intros; apply lookup_empty |]. split; [apply lookup_empty |].
    intros k v. by rewrite lookup_empty.
Qed.

Lemma get_prop_truthy_object params k v :
  get_prop params k = Return v → truthy v = true → k ≠ "length" → truthy params = true.
Proof.
  intros Hget Hv Hk. apply String.eqb_neq in Hk.
  destruct params as [| | b | z | s | l | m]; cbn in Hget;
    try discriminate Hget; try reflexivity;
    injection Hget as <-; rewrite ?Hk in Hv; discriminate Hv.
Qed.

(** X6: called with parameters whose [email] is truthy, [passportVerify]
    on a profile object returns with [emails] set to the one entry
    [{ value: email }] (an [emails] field the profile already had is
    replaced, every other field is untouched); on an [undefined] or [null]
    profile the unguarded assignment throws a [TypeError], and neither the
    application's function nor [this.error] is called. *)
Theorem passportVerify_merges_email verify req accessToken refreshToken params email
    profile verified :
  get_prop params "email" = Return email →
  truthy email = true →
  (∀ fields : gmap string value, profile = VObj fields →
    ∃ ev,
      passportVerify verify req accessToken refreshToken params profile verified
      = Return (VObj (<["emails" := VArr [VObj {["value" := email]}]]> fields), ev)) ∧
  ((profile = VUndefined ∨ profile = VNull) →
    passportVerify verify req accessToken refreshToken params profile verified
    = Throw TypeError).
Proof.
  intros Hemail Htruthy.
  assert (Hparams : truthy params = true)
    by (by apply (get_prop_truthy_object params "email" email)).
  assert (Hclaim : (if truthy params then get_prop params "email" else Return params)
                   = Return email) by (by rewrite Hparams).
  split.
  - intros fields ->.
    rewrite (passportVerify_after_merge _ _ _ _ _ _ _ email
               (VObj (<["emails" := VArr [VObj {["value" := email]}]]> fields)) Hclaim)
      by (by rewrite Htruthy).
    eauto.
  - intros Hprofile. unfold passportVerify. rewrite Hclaim.
    cbn [mbind completion_bind]. rewrite Htruthy.
    by destruct Hprofile as [-> | ->].
Qed.

(** X7: called with parameters that carry no truthy [email] ([undefined] or
    [null] parameters, a missing or an empty [email]), [passportVerify]
    returns without throwing and passes the profile on exactly as it was,
    whatever the profile is ([undefined] included): the assignment of
    [profile.emails] is not reached. *)
Theorem passportVerify_keeps_profile verify req accessToken refreshToken params
    profile verified :
  (∀ email, get_prop params "email" = Return email → truthy email = false) →
  ∃ ev,
    passportVerify verify req accessToken refreshToken params profile verified
    = Return (profile, ev).
Proof.
  intros Hnone. unfold passportVerify.
  assert (Hemail : ∃ email,
    (if truthy params then get_prop params "email" else Return params) = Return email
    ∧ truthy email = false).
  { destruct (truthy params) eqn:Hparams; [| eauto].
    destruct (get_prop params "email") as [email | e] eqn:Hget; [eauto |].
    destruct params; discriminate. }
  destruct Hemail as (email & -> & Hfalsy). cbn [mbind completion_bind].
  rewrite Hfalsy.
  destruct (fn_length verify =? 6)%nat; [eauto |].
  destruct (fn_length verify =? 5)%nat; [eauto |].
  destruct (fn_length verify =? 4)%nat; eauto.
Qed.

End MoreWrapper.

Section MoreWrapperExamples.
Import Reference Examples Cases.

(** The examples of X6: the old address is replaced; an [undefined] profile
    makes the wrapper throw. *)
Lemma passportVerify_merges_email_witness :
  get_prop params "email" = Return (VStr "user@example.net") ∧
  profile_with_emails !! "emails"
  = Some (VArr [VObj (<["value" := VStr "old@example.net"]> ∅)]) ∧
  (∃ ev,
    passportVerify verify4 req accessToken refreshToken params (VObj profile_with_emails)
      verified
    = Return (VObj (<["emails" := VArr [VObj {["value" := VStr "user@example.net"]}]]>
                      profile_with_emails), ev)) ∧
  passportVerify verify4 req accessToken refreshToken params VUndefined verified
  = Throw TypeError.
Proof.
  split; [reflexivity |]. split; [reflexivity |].
  split.
  - destruct (passportVerify_merges_email verify4 req accessToken refreshToken params
                (VStr "user@example.net") (VObj profile_with_emails) verified
                eq_refl eq_refl) as [Hobject _].
    exact (Hobject profile_with_emails eq_refl).
  - destruct (passportVerify_merges_email verify4 req accessToken refreshToken params
                (VStr "user@example.net") VUndefined verified eq_refl eq_refl)
      as [_ Hmissing].
    apply Hmissing. by left.
Defined.

(** The examples of X7: [null] parameters, no [email], an empty [email], and
    an [undefined] profile. *)
Lemma passportVerify_keeps_profile_witness :
  (∃ ev, passportVerify verify4 req accessToken refreshToken VNull (VObj profile) verified
         = Return (VObj profile, ev)) ∧
  (∃ ev, passportVerify verify4 req accessToken refreshToken params_plain (VObj profile)
           verified
         = Return (VObj profile, ev)) ∧
  (∃ ev, passportVerify verify4 req accessToken refreshToken params_empty_email
           (VObj profile) verified
         = Return (VObj profile, ev)) ∧
  (∃ ev, passportVerify verify4 req accessToken refreshToken params_plain VUndefined
           verified
         = Return (VUndefined, ev)).
Proof.
  split; [| split; [| split]].
  - apply passportVerify_keeps_profile. intros email. discriminate.
  - apply passportVerify_keeps_profile. intros email Hemail.
    vm_compute in Hemail. by injection Hemail as <-.
  - apply passportVerify_keeps_profile. intros email Hemail.
    vm_compute in Hemail. by injection Hemail as <-.
  - apply passportVerify_keeps_profile. intros email Hemail.
    vm_compute in Hemail. by injection Hemail as <-.
Defined.

End MoreWrapperExamples.

(** ** More on the profile response *)

Section MoreFetch.
Context `{Environment}.

Lemma parse_Throw record e : parse record = Throw e → e = TypeError.
Proof. destruct record; cbn; congruence. Qed.

Lemma get_prop_Throw o k e : get_prop o k = Throw e → e = TypeError.
Proof. destruct o; cbn; congruence. Qed.

Lemma get_index_Throw o i e : get_index o i = Throw e → e = TypeError.
Proof. destruct o; cbn; congruence. Qed.

(** X9: with a transport error, [done] receives the [InternalOAuthError]
    ["failed to fetch user profile"] that wraps this error, whatever the
    body; and [done] receives an [InternalOAuthError] in no other case. *)
Theorem userProfile_callback_transport_error err body :
  (truthy err = true →
    userProfile_callback err body
    = Done (Some (InternalOAuthError "failed to fetch user profile" err)) None) ∧
  (∀ message cause p,
    userProfile_callback err body = Done (Some (InternalOAuthError message cause)) p →
    truthy err = true ∧ message = "failed to fetch user profile" ∧ cause = err ∧ p = None).
Proof.
  unfold userProfile_callback. split; [by intros -> |].
  intros message cause p.
  destruct (truthy err); [by intros [= <- <- <-] |].
  destruct (JSON_parse body) as [json |]; cbn [from_option mbind completion_bind];
    [| discriminate].
  destruct (get_prop json "error") as [error | e] eqn:Herror;
    cbn [mbind completion_bind];
    [| apply get_prop_Throw in Herror as ->; discriminate].
  destruct (truthy error).
  { destruct (get_prop error "error_msg") as [error_msg | e] eqn:Hmsg;
      cbn [mbind completion_bind];
      [| apply get_prop_Throw in Hmsg as ->; discriminate].
    destruct (get_prop error "error_code") as [error_code | e] eqn:Hcode;
      cbn [mbind completion_bind];
      [discriminate | apply get_prop_Throw in Hcode as ->; discriminate]. }
  destruct (get_prop json "response") as [response | e] eqn:Hresponse;
    cbn [mbind completion_bind];
    [| apply get_prop_Throw in Hresponse as ->; discriminate].
  destruct (get_index response 0) as [record | e] eqn:Hrecord;
    cbn [mbind completion_bind];
    [| apply get_index_Throw in Hrecord as ->; discriminate].
  destruct (parse record) as [parsed | e] eqn:Hparsed;
    cbn [mbind completion_bind]; [discriminate |].
  apply parse_Throw in Hparsed as ->. discriminate.
Qed.

(** X10: a body that parses to [null], or to a value with no truthy [error]
    whose [response] is missing or [null], makes the callback fail at
    [json.error] or [json.response[0]]; the [TypeError] is caught and handed
    to [done], and no profile is delivered. *)
Theorem userProfile_callback_malformed err body json :
  truthy err = false →
  JSON_parse body = Some json →
  (json = VNull ∨
   ∃ error response,
     get_prop json "error" = Return error ∧ truthy error = false ∧
     get_prop json "response" = Return response ∧
     (response = VUndefined ∨ response = VNull)) →
  userProfile_callback err body = Done (Some TypeError) None.
Proof.
  intros Herr Hbody Hshape. unfold userProfile_callback. rewrite Herr, Hbody.
  cbn [from_option mbind completion_bind].
  destruct Hshape as [-> | (error & response & -> & Hfalsy & -> & Hresponse)];
    [reflexivity |].
  cbn [mbind completion_bind]. rewrite Hfalsy.
  by destruct Hresponse as [-> | ->].
Qed.

(** X11: the profile callback tests [json.error] for truthiness only.  A
    truthy [error] that is not an object (a plain OAuth2 error string, say)
    yields a [VkontakteAPIError] whose message and code are both
    [undefined]. *)
Theorem userProfile_callback_error_not_object err body (json : gmap string value) error :
  truthy err = false →
  JSON_parse body = Some (VObj json) →
  json !! "error" = Some error →
  truthy error = true →
  (∀ fields, error ≠ VObj fields) →
  userProfile_callback err body
  = Done (Some (VkontakteAPIError VUndefined VUndefined)) None.
Proof.
  intros Herr Hbody Herror Htruthy Hnot. unfold userProfile_callback.
  rewrite Herr, Hbody. cbn [from_option mbind completion_bind get_prop].
  rewrite Herror. cbn [from_option id]. rewrite Htruthy.
  destruct error; try discriminate Htruthy; try reflexivity.
  by destruct (Hnot m).
Qed.

(** X12: on the successful path the delivered profile is what [parse]
    returned with exactly three properties assigned: [provider], [_raw] and
    [_json] (overwritten if [parse] had set them); every other property is
    the one [parse] produced. *)
Theorem userProfile_callback_delivers err body json error response record parsed :
  truthy err = false →
  JSON_parse body = Some json →
  get_prop json "error" = Return error →
  truthy error = false →
  get_prop json "response" = Return response →
  get_index response 0 = Return record →
  parse record = Return parsed →
  ∃ profile : gmap string value,
    userProfile_callback err body = Done None (Some (VObj profile)) ∧
    profile !! "provider" = Some (VStr "vkontakte") ∧
    profile !! "_raw" = Some (VStr body) ∧
    profile !! "_json" = Some record ∧
    (∀ k, k ∉ userProfile_keys → profile !! k = parsed !! k).
Proof.
  intros Herr Hbody Herror Hfalsy Hresponse Hrecord Hparsed.
  unfold userProfile_callback. rewrite Herr, Hbody.
  cbn [from_option mbind completion_bind]. rewrite Herror.
  cbn [mbind completion_bind]. rewrite Hfalsy, Hresponse.
  cbn [mbind completion_bind]. rewrite Hrecord.
  cbn [mbind completion_bind]. rewrite Hparsed.
  cbn [mbind completion_bind]. eexists. split; [reflexivity |].
  split; [by simplify_map_eq |]. split; [by simplify_map_eq |].
  split; [by simplify_map_eq |].
  intros k Hk. unfold userProfile_keys in Hk.
  rewrite !not_elem_of_cons in Hk. destruct Hk as (? & ? & ? & _).
  by rewrite !lookup_insert_ne.
Qed.

End MoreFetch.

Section MoreFetchExamples.
Import Reference Examples Cases.

(** The example of X9: a valid body is not looked at. *)
Lemma userProfile_callback_transport_error_witness :
  @userProfile_callback env transport_error profile_body
  = Done (Some (InternalOAuthError "failed to fetch user profile" transport_error)) None.
Proof.
  destruct (@userProfile_callback_transport_error env transport_error profile_body)
    as [Herror _].
  exact (Herror eq_refl).
Defined.

(** The examples of X10: the bodies [null] and [{}]. *)
Lemma userProfile_callback_malformed_witness :
  @userProfile_callback env VNull null_body = Done (Some TypeError) None ∧
  @userProfile_callback env VNull "{}" = Done (Some TypeError) None.
Proof.
  split.
  - refine (@userProfile_callback_malformed env VNull null_body VNull eq_refl _ _).
    + vm_compute. reflexivity.
    + by left.
  - refine (@userProfile_callback_malformed env VNull "{}" (VObj ∅) eq_refl _ _).
    + vm_compute. reflexivity.
    + right. exists VUndefined, VUndefined. repeat split; try reflexivity. by left.
Defined.

(** The example of X11: a plain OAuth2 error body. *)
Lemma userProfile_callback_error_not_object_witness :
  @userProfile_callback env VNull oauth2_error_body
  = Done (Some (VkontakteAPIError VUndefined VUndefined)) None.
Proof.
  refine (@userProfile_callback_error_not_object env VNull oauth2_error_body
            _ (VStr "invalid_grant") eq_refl oauth2_error_body_parses eq_refl eq_refl _).
  intros fields. discriminate.
Defined.

(** The example of X12. *)
Lemma userProfile_callback_delivers_witness :
  ∃ profile : gmap string value,
    @userProfile_callback env VNull profile_body = Done None (Some (VObj profile)) ∧
    profile !! "provider" = Some (VStr "vkontakte") ∧
    profile !! "_raw" = Some (VStr profile_body) ∧
    profile !! "_json" = Some user_record ∧
    profile !! "displayName" = Some (VStr "A B").
Proof.
  destruct (@userProfile_callback_delivers env VNull profile_body profile_json VUndefined
              (VArr [user_record]) user_record
              (<["photos" := VArr [VObj (<["value" := VStr "http://x"]> ∅)]]>
               (<["gender" := VStr "male"]>
               (<["name" := VObj (<["familyName" := VStr "B"]>
                                 (<["givenName" := VStr "A"]> ∅))]>
               (<["displayName" := VStr "A B"]> (<["id" := VNum 1]> ∅)))))
              eq_refl profile_body_parses eq_refl eq_refl eq_refl eq_refl)
    as (profile & Hdone & Hprovider & Hraw & Hjson & Hrest).
  { vm_compute. reflexivity. }
  exists profile. split; [exact Hdone |]. split; [exact Hprovider |].
  split; [exact Hraw |]. split; [exact Hjson |].
  rewrite Hrest; [reflexivity |].
  apply (bool_decide_unpack _). vm_compute. exact I.
Defined.

End MoreFetchExamples.

(** ** More on the profile fields *)

Section MoreFields.

(** The [forEach] loop only appends, and only values of the caller's array. *)
Lemma fold_push_new_extends (l fields : list value) :
  ∃ extra,
    fold_left push_new l fields = fields ++ extra ∧
    (∀ x, x ∈ extra → x ∈ l) ∧
    (length extra ≤ length l)%nat.
Proof.
  revert fields. induction l as [| f l IH]; intros fields; cbn [fold_left].
  - exists []. rewrite app_nil_r. split; [reflexivity |]. split; [| reflexivity].
    intros x Hx. by apply elem_of_nil in Hx.
  - destruct (IH (push_new fields f)) as (extra & -> & Hin & Hlen).
    unfold push_new. destruct (not_indexOf fields f).
    + exists (f :: extra). rewrite <- app_assoc. split; [reflexivity |].
      split; [| cbn; lia].
      intros x Hx. apply elem_of_cons in Hx as [-> | Hx]; [by left | right; auto].
    + exists extra. split; [reflexivity |]. split; [| cbn; lia].
      intros x Hx. right. auto.
Qed.

(** X15: whatever values the caller's array holds, the six required fields
    come first and in their fixed order; what follows are values of the
    caller's array, at most as many as it holds. *)
Theorem userProfile_fields_start_with_required this (l : list value) :
  _profileFields this = VArr l →
  ∃ extra,
    userProfile_fields this = Return ((VStr <$> required_fields (photoSize this)) ++ extra) ∧
    (∀ x, x ∈ extra → x ∈ l) ∧
    (length extra ≤ length l)%nat.
Proof.
  intros Hfields. unfold userProfile_fields. rewrite Hfields.
  destruct (fold_push_new_extends l
              (VStr <$> required_fields (photoSize this))) as (extra & Hfold & Hin & Hlen).
  exists extra. split; [| by split].
  f_equal. exact Hfold.
Qed.

Lemma first_occurrences_app seen l1 l2 :
  first_occurrences seen (l1 ++ l2)
  = first_occurrences seen l1 ++ first_occurrences (seen ++ first_occurrences seen l1) l2.
Proof.
  revert seen. induction l1 as [| f l1 IH]; intros seen; cbn.
  - by rewrite app_nil_r.
  - destruct (decide (f ∈ seen)); [apply IH |].
    rewrite IH. cbn. by rewrite <- app_assoc.
Qed.

Lemma first_occurrences_seen seen l :
  (∀ f, f ∈ l → f ∈ seen) → first_occurrences seen l = [].
Proof.
  induction l as [| f l IH]; intros Hseen; cbn; [reflexivity |].
  rewrite decide_True by (apply Hseen; by left).
  apply IH. intros g Hg. apply Hseen. by right.
Qed.

(** X16: listing further fields that are required or were already listed
    changes nothing: the merged field list is the same as without them. *)
Theorem userProfile_fields_ignore_known this this' (l1 l2 : list string) :
  photoSize this' = photoSize this →
  _profileFields this = VArr (VStr <$> l1) →
  _profileFields this' = VArr (VStr <$> (l1 ++ l2)) →
  (∀ f, f ∈ l2 → f ∈ required_fields (photoSize this) ∨ f ∈ l1) →
  userProfile_fields this' = userProfile_fields this.
Proof.
  intros Hsize Hfields Hfields' Hknown.
  unfold userProfile_fields. rewrite Hfields, Hfields', Hsize.
  change [VStr "uid"; VStr "first_name"; VStr "last_name"; VStr "screen_name";
          VStr "sex"; VStr (js_add "photo_" (photoSize this))]
    with (VStr <$> required_fields (photoSize this)).
  rewrite !fold_push_new_strs, first_occurrences_app.
  rewrite (first_occurrences_seen _ l2); [by rewrite app_nil_r |].
  intros f Hf. rewrite elem_of_app, first_occurrences_elem.
  destruct (decide (f ∈ required_fields (photoSize this))); [by left |].
  destruct (Hknown f Hf); [by left | by right].
Qed.

End MoreFields.

Section MoreFieldsExamples.
Import Cases.

(** The example of X15: [5], [null] and [city] are appended, [uid] is not. *)
Lemma userProfile_fields_start_with_required_witness :
  userProfile_fields this_mixed_fields
  = Return ((VStr <$> ["uid"; "first_name"; "last_name"; "screen_name"; "sex"; "photo_200"])
            ++ [VNum 5; VNull; VStr "city"]).
Proof.
  destruct (userProfile_fields_start_with_required this_mixed_fields
              [VNum 5; VStr "uid"; VNull; VStr "city"] eq_refl) as (extra & Hfields & _).
  rewrite Hfields. vm_compute in Hfields. injection Hfields as <-. reflexivity.
Defined.

(** The example of X16: [city] again and [uid] change nothing. *)
Lemma userProfile_fields_ignore_known_witness :
  userProfile_fields this_repeated_fields = userProfile_fields this_plain_fields ∧
  userProfile_url this_repeated_fields
  = Return ("https://api.vk.com/method/users.get"
            +:+ "?fields=uid,first_name,last_name,screen_name,sex,photo_200,city,bdate"
            +:+ "&v=5.110&https=1&lang=en").
Proof.
  assert (Hsame : userProfile_fields this_repeated_fields
                  = userProfile_fields this_plain_fields).
  { apply (userProfile_fields_ignore_known this_plain_fields this_repeated_fields
             ["city"; "bdate"] ["city"; "uid"]); try reflexivity.
    intros f Hf. apply elem_of_cons in Hf as [-> | Hf].
    - right. by left.
    - apply list_elem_of_singleton in Hf as ->. left. by left. }
  split; [exact Hsame |]. reflexivity.
Defined.

End MoreFieldsExamples.
